(** * CreditIQ Analytics: the synthetic sample-data generator

    A shallow embedding of [assets/script.py] and the properties of the
    generated borrower, alternative-data and loan tables.

    Conventions of the embedding.
    - A Python float is an exact rational ([Q]); a decimal literal such as
      [0.15] is the rational it spells.  Comparisons are the exact ones.
      What is proved of the rationals carries over to the floats where it
      is a matter of order and range, not where it is an exact value or a
      tight bound: those are stated of the scoring arithmetic embedded a
      second time in binary64 ([B64]), on the primitive floats.
    - A numpy [int64] is an integer ([Z]); [astype(int)] truncates toward
      zero.  The script does no integer arithmetic besides comparisons and
      clipping.
    - The process-wide generator of [numpy.random] is an explicit state
      threaded through every draw; numpy itself is an interface
      ([RandomState]) with the documented supports of its distributions
      ([RandomSupport]).
    - The wall clock and the disk are oracles of the run: what the k-th
      [datetime.now()] returns and which paths can be written.
    - An exception leaves the effects performed before it in place, so a
      computation returns its result, or the exception, together with the
      world it reached.  A write that fails leaves the files as they were.
    - What the script prints (table heads, shapes, the default rate) does
      not reach the tables or the files and is left out. *)

From Stdlib Require Import ZArith QArith Lqa Lia String Ascii List.
From Stdlib Require Import DecimalString DecimalNat PrimFloat.
From stdpp Require Import base option list strings gmap.

#[local] Set Warnings "-inexact-float".

Local Open Scope Q_scope.

(** ** Python and numpy scalars *)

Module Py.

(** [x < y] on floats. *)
Definition ltb (x y : Q) : bool := negb (Qle_bool y x).

(** The builtin [max(a, b)]: [b] replaces [a] only when it is greater. *)
Definition max (a b : Q) : Q := if ltb a b then b else a.

(** The builtin [min(a, b)]: [b] replaces [a] only when it is smaller. *)
Definition min (a b : Q) : Q := if ltb b a then b else a.

(** [str(i)] for a natural number: its decimal numeral. *)
Definition str (i : nat) : string := NilEmpty.string_of_uint (Nat.to_uint i).

Definition zeros (k : nat) : string := string_of_list_ascii (repeat "0"%char k).

Definition is_sign (c : ascii) : bool :=
  (Ascii.eqb c "+" || Ascii.eqb c "-")%bool.

(** [s.zfill(width)]: pad with zeros on the left, after a leading sign. *)
Definition zfill (width : nat) (s : string) : string :=
  let fill := (width - String.length s)%nat in
  match s with
  | String c rest =>
      if is_sign c then String c (zeros fill ++ rest)%string
      else (zeros fill ++ s)%string
  | EmptyString => zeros fill
  end.

(** A [datetime] in microseconds, and [timedelta(days=d)]. *)
Definition datetime : Type := Z.
Definition timedelta_days (d : Z) : Z := (d * 86400000000)%Z.

End Py.

Module Np.

(** [astype(int)] on a float: truncation toward zero. *)
Definition astype_int (x : Q) : Z := Z.quot (Qnum x) (Z.pos (Qden x)).

(** [np.clip] on an integer and on a float: [minimum(maximum(x, lo), hi)]. *)
Definition clipZ (lo hi x : Z) : Z := Z.min (Z.max x lo) hi.
Definition clipQ (lo hi x : Q) : Q :=
  let m := if Py.ltb x lo then lo else x in
  if Py.ltb hi m then hi else m.

Definition clip (lo hi : Z) (a : list Z) : list Z := map (clipZ lo hi) a.
Definition clip_float (lo hi : Q) (a : list Q) : list Q := map (clipQ lo hi) a.

End Np.

(** ** The generator interface of [numpy.random] *)

(** The legacy global generator: a state, and one scalar sampler per
    distribution the script draws from.  Each sampler returns its value
    and the state it leaves. *)
Class RandomState : Type := {
  rng_state : Type;
  np_seed : Z -> rng_state;
  np_normal : Q -> Q -> rng_state -> Q * rng_state;
  np_lognormal : Q -> Q -> rng_state -> Q * rng_state;
  np_exponential : Q -> rng_state -> Q * rng_state;
  np_beta : Q -> Q -> rng_state -> Q * rng_state;
  np_poisson : Q -> rng_state -> Z * rng_state;
  np_binomial : Z -> Q -> rng_state -> Z * rng_state;
  np_choice : list Q -> rng_state -> nat * rng_state;
  np_randint : Z -> Z -> rng_state -> Z * rng_state;
  np_random : rng_state -> Q * rng_state
}.

(** The supports numpy documents for these distributions, for parameters
    it accepts. *)
Class RandomSupport (R : RandomState) : Prop := {
  lognormal_pos : forall m sg s, 0 <= sg -> 0 < fst (np_lognormal m sg s);
  exponential_nonneg : forall sc s, 0 <= sc -> 0 <= fst (np_exponential sc s);
  beta_unit : forall a b s, 0 < a -> 0 < b ->
    0 <= fst (np_beta a b s) /\ fst (np_beta a b s) <= 1;
  poisson_nonneg : forall lam s, 0 <= lam -> (0 <= fst (np_poisson lam s))%Z;
  binomial_range : forall k p s, (0 <= k)%Z -> 0 <= p -> p <= 1 ->
    (0 <= fst (np_binomial k p s) <= k)%Z;
  choice_range : forall p s, p <> [] -> (fst (np_choice p s) < length p)%nat;
  randint_range : forall lo hi s,
    (lo < hi)%Z -> (lo <= fst (np_randint lo hi s) < hi)%Z;
  random_unit : forall s, 0 <= fst (np_random s) /\ fst (np_random s) < 1
}.

(** ** Rows and tables *)

Module Borrower.
Record row : Type := {
  borrower_id : string;
  age : Z;
  income : Z;
  employment_type : string;
  city_tier : string;
  education : string;
  existing_loans : Z;
  credit_history_months : Z;
  bank_account_age_months : Z
}.
End Borrower.

Module Alt.
Record row : Type := {
  borrower_id : string;
  upi_transactions_monthly : Z;
  utility_bill_payment_consistency : Q;
  gst_returns_filed : Z;
  mobile_recharge_frequency : Z;
  ecommerce_transactions_monthly : Z;
  digital_wallet_balance_avg : Z;
  social_media_financial_mentions : Z;
  app_usage_financial_minutes_daily : Z;
  location_stability_score : Q
}.
End Alt.

Module Loan.
Record row : Type := {
  loan_id : string;
  borrower_id : string;
  loan_amount : Z;
  loan_tenure_months : Z;
  interest_rate : Q;
  loan_purpose : string;
  application_date : Py.datetime;
  default_probability : Q;
  is_default : bool;
  credit_score_traditional : Z
}.
End Loan.

(** The dictionaries of columns [borrower_data], [alt_data] and [loan_data],
    and the data frames built from them. *)

Module BorrowerData.
Record t : Type := {
  borrower_id : list string;
  age : list Z;
  income : list Z;
  employment_type : list string;
  city_tier : list string;
  education : list string;
  existing_loans : list Z;
  credit_history_months : list Z;
  bank_account_age_months : list Z
}.
End BorrowerData.

Module AltData.
Record t : Type := {
  borrower_id : list string;
  upi_transactions_monthly : list Z;
  utility_bill_payment_consistency : list Q;
  gst_returns_filed : list Z;
  mobile_recharge_frequency : list Z;
  ecommerce_transactions_monthly : list Z;
  digital_wallet_balance_avg : list Z;
  social_media_financial_mentions : list Z;
  app_usage_financial_minutes_daily : list Z;
  location_stability_score : list Q
}.
End AltData.

Module LoanData.
Record t : Type := {
  loan_id : list string;
  borrower_id : list string;
  loan_amount : list Z;
  loan_tenure_months : list Z;
  interest_rate : list Q;
  loan_purpose : list string;
  application_date : list Py.datetime;
  default_probability : list Q;
  is_default : list bool;
  credit_score_traditional : list Z
}.
End LoanData.

(** [df.iloc[i]]: the row at position [i], when there is one. *)

Definition borrower_iloc (df : BorrowerData.t) (i : nat) : option Borrower.row :=
  c1 ← BorrowerData.borrower_id df !! i;
  c2 ← BorrowerData.age df !! i;
  c3 ← BorrowerData.income df !! i;
  c4 ← BorrowerData.employment_type df !! i;
  c5 ← BorrowerData.city_tier df !! i;
  c6 ← BorrowerData.education df !! i;
  c7 ← BorrowerData.existing_loans df !! i;
  c8 ← BorrowerData.credit_history_months df !! i;
  c9 ← BorrowerData.bank_account_age_months df !! i;
  Some {| Borrower.borrower_id := c1; Borrower.age := c2;
          Borrower.income := c3; Borrower.employment_type := c4;
          Borrower.city_tier := c5; Borrower.education := c6;
          Borrower.existing_loans := c7;
          Borrower.credit_history_months := c8;
          Borrower.bank_account_age_months := c9 |}.

Definition alt_iloc (df : AltData.t) (i : nat) : option Alt.row :=
  c1 ← AltData.borrower_id df !! i;
  c2 ← AltData.upi_transactions_monthly df !! i;
  c3 ← AltData.utility_bill_payment_consistency df !! i;
  c4 ← AltData.gst_returns_filed df !! i;
  c5 ← AltData.mobile_recharge_frequency df !! i;
  c6 ← AltData.ecommerce_transactions_monthly df !! i;
  c7 ← AltData.digital_wallet_balance_avg df !! i;
  c8 ← AltData.social_media_financial_mentions df !! i;
  c9 ← AltData.app_usage_financial_minutes_daily df !! i;
  c10 ← AltData.location_stability_score df !! i;
  Some {| Alt.borrower_id := c1; Alt.upi_transactions_monthly := c2;
          Alt.utility_bill_payment_consistency := c3;
          Alt.gst_returns_filed := c4;
          Alt.mobile_recharge_frequency := c5;
          Alt.ecommerce_transactions_monthly := c6;
          Alt.digital_wallet_balance_avg := c7;
          Alt.social_media_financial_mentions := c8;
          Alt.app_usage_financial_minutes_daily := c9;
          Alt.location_stability_score := c10 |}.

Definition loan_iloc (df : LoanData.t) (i : nat) : option Loan.row :=
  c1 ← LoanData.loan_id df !! i;
  c2 ← LoanData.borrower_id df !! i;
  c3 ← LoanData.loan_amount df !! i;
  c4 ← LoanData.loan_tenure_months df !! i;
  c5 ← LoanData.interest_rate df !! i;
  c6 ← LoanData.loan_purpose df !! i;
  c7 ← LoanData.application_date df !! i;
  c8 ← LoanData.default_probability df !! i;
  c9 ← LoanData.is_default df !! i;
  c10 ← LoanData.credit_score_traditional df !! i;
  Some {| Loan.loan_id := c1; Loan.borrower_id := c2; Loan.loan_amount := c3;
          Loan.loan_tenure_months := c4; Loan.interest_rate := c5;
          Loan.loan_purpose := c6; Loan.application_date := c7;
          Loan.default_probability := c8; Loan.is_default := c9;
          Loan.credit_score_traditional := c10 |}.

(** ** The world of a run *)

(** What a file on disk holds: a table written by [to_csv], or text. *)
Inductive artifact : Type :=
| BorrowerCsv (df : BorrowerData.t)
| AltCsv (df : AltData.t)
| LoanCsv (df : LoanData.t)
| Text (s : string).

Inductive exn : Type :=
| IndexError
| ValueError
| OSError (path : string).

Inductive result (A : Type) : Type :=
| Ok (a : A)
| Raise (e : exn).
Arguments Ok {A} a.
Arguments Raise {A} e.

Section Script.

Context {R : RandomState}.

(** What the k-th call of [datetime.now()] returns, and which paths the
    process may write. *)
Variable wall_clock : nat -> Py.datetime.
Variable writable : string -> bool.

Record World : Type := {
  rng : rng_state;
  clock_reads : nat;
  fs : gmap string artifact
}.

Definition M (A : Type) : Type := World -> result A * World.

Definition ret {A} (a : A) : M A := fun w => (Ok a, w).

Definition bind {A B} (m : M A) (k : A -> M B) : M B :=
  fun w =>
    match m w with
    | (Ok a, w') => k a w'
    | (Raise e, w') => (Raise e, w')
    end.

Definition raise {A} (e : exn) : M A := fun w => (Raise e, w).

Notation "x <- m ;; k" := (bind m (fun x => k))
  (at level 100, m at next level, right associativity).
Notation "m ;;; k" := (bind m (fun _ => k))
  (at level 100, right associativity).

(** One draw from the process-wide generator. *)
Definition draw {A} (f : rng_state -> A * rng_state) : M A :=
  fun w =>
    let (a, s) := f (rng w) in
    (Ok a, {| rng := s; clock_reads := clock_reads w; fs := fs w |}).

(** A sampler called with [size = n]: [n] successive draws. *)
Fixpoint draws {A} (n : nat) (f : rng_state -> A * rng_state) : M (list A) :=
  match n with
  | O => ret []
  | S k => x <- draw f ;; xs <- draws k f ;; ret (x :: xs)
  end.

(** [np.random.seed(k)] *)
Definition seed (k : Z) : M unit :=
  fun w => (Ok tt, {| rng := np_seed k; clock_reads := clock_reads w; fs := fs w |}).

(** [np.random.choice(a, n, p=p)]: numpy draws positions of [a]; a position
    outside [a], which numpy never returns, reads as the default value. *)
Definition choice {A} `{Inhabited A} (a : list A) (n : nat) (p : list Q)
  : M (list A) :=
  idx <- draws n (np_choice p) ;; ret (map (fun i => a !!! i) idx).

(** [datetime.now()] *)
Definition datetime_now : M Py.datetime :=
  fun w =>
    (Ok (wall_clock (clock_reads w)),
     {| rng := rng w; clock_reads := S (clock_reads w); fs := fs w |}).

(** Opening [path] for writing and writing [a] to it. *)
Definition write_file (path : string) (a : artifact) : M unit :=
  fun w =>
    if writable path
    then (Ok tt, {| rng := rng w; clock_reads := clock_reads w;
                    fs := <[path := a]> (fs w) |})
    else (Raise (OSError path), w).

(** A comprehension or loop over a list, left to right. *)
Fixpoint for_each {A B} (f : A -> M B) (l : list A) : M (list B) :=
  match l with
  | [] => ret []
  | x :: l' => y <- f x ;; ys <- for_each f l' ;; ret (y :: ys)
  end.

(** *** Data frames *)

Definition same_length (n : nat) (ls : list nat) : bool :=
  forallb (Nat.eqb n) ls.

(** [pd.DataFrame(d)]: the columns must have one length. *)
Definition BorrowerDataFrame (d : BorrowerData.t) : M BorrowerData.t :=
  if same_length (length (BorrowerData.borrower_id d))
       [length (BorrowerData.age d); length (BorrowerData.income d);
        length (BorrowerData.employment_type d);
        length (BorrowerData.city_tier d);
        length (BorrowerData.education d);
        length (BorrowerData.existing_loans d);
        length (BorrowerData.credit_history_months d);
        length (BorrowerData.bank_account_age_months d)]
  then ret d else raise ValueError.

Definition AltDataFrame (d : AltData.t) : M AltData.t :=
  if same_length (length (AltData.borrower_id d))
       [length (AltData.upi_transactions_monthly d);
        length (AltData.utility_bill_payment_consistency d);
        length (AltData.gst_returns_filed d);
        length (AltData.mobile_recharge_frequency d);
        length (AltData.ecommerce_transactions_monthly d);
        length (AltData.digital_wallet_balance_avg d);
        length (AltData.social_media_financial_mentions d);
        length (AltData.app_usage_financial_minutes_daily d);
        length (AltData.location_stability_score d)]
  then ret d else raise ValueError.

Definition LoanDataFrame (d : LoanData.t) : M LoanData.t :=
  if same_length (length (LoanData.loan_id d))
       [length (LoanData.borrower_id d); length (LoanData.loan_amount d);
        length (LoanData.loan_tenure_months d);
        length (LoanData.interest_rate d);
        length (LoanData.loan_purpose d);
        length (LoanData.application_date d);
        length (LoanData.default_probability d);
        length (LoanData.is_default d);
        length (LoanData.credit_score_traditional d)]
  then ret d else raise ValueError.

(** [df.iloc[i]] inside the script: out of range is an [IndexError]. *)
Definition index {A} (o : option A) : M A :=
  match o with
  | Some x => ret x
  | None => raise IndexError
  end.

(** *** The default-probability heuristic *)

(** The body of [calculate_default_probability] is a sequence of
    updates of [risk_score], one per commented block of the source. *)

(** Age factor (middle-aged lower risk) *)
Definition age_factor (row : Borrower.row) (risk_score : Q) : Q :=
  if ((25 <=? Borrower.age row)%Z && (Borrower.age row <=? 45)%Z)%bool
  then risk_score - 0.1
  else risk_score + 0.05.

(** Income factor *)
Definition income_factor (row : Borrower.row) (risk_score : Q) : Q :=
  if (50000 <? Borrower.income row)%Z then risk_score - 0.15
  else if (Borrower.income row <? 25000)%Z then risk_score + 0.2
  else risk_score.

(** Employment stability *)
Definition employment_stability (row : Borrower.row) (risk_score : Q) : Q :=
  if String.eqb (Borrower.employment_type row) "Salaried"
  then risk_score - 0.1
  else if String.eqb (Borrower.employment_type row) "Self-Employed"
  then risk_score + 0.05
  else risk_score.

(** Alternative data factors *)
Definition alternative_data_factors (alt_row : Alt.row) (risk_score : Q) : Q :=
  let risk_score :=
    if Py.ltb 0.8 (Alt.utility_bill_payment_consistency alt_row)
    then risk_score - 0.1 else risk_score in
  let risk_score :=
    if (30 <? Alt.upi_transactions_monthly alt_row)%Z
    then risk_score - 0.05 else risk_score in
  let risk_score :=
    if Py.ltb 0.7 (Alt.location_stability_score alt_row)
    then risk_score - 0.08 else risk_score in
  risk_score.

(** Credit history *)
Definition credit_history (row : Borrower.row) (risk_score : Q) : Q :=
  if (24 <? Borrower.credit_history_months row)%Z
  then risk_score - 0.1 else risk_score.

(** The score accumulated before the random factor is added. *)
Definition risk_before_noise (row : Borrower.row) (alt_row : Alt.row) : Q :=
  let risk_score := 0 in
  let risk_score := age_factor row risk_score in
  let risk_score := income_factor row risk_score in
  let risk_score := employment_stability row risk_score in
  let risk_score := alternative_data_factors alt_row risk_score in
  let risk_score := credit_history row risk_score in
  risk_score.

(** The value before clamping, and the value returned, for a given value
    of the random factor. *)
Definition raw_score (row : Borrower.row) (alt_row : Alt.row) (noise : Q) : Q :=
  let risk_score := risk_before_noise row alt_row in
  let risk_score := risk_score + noise in
  0.15 + risk_score.

Definition bounded_probability (row : Borrower.row) (alt_row : Alt.row)
    (noise : Q) : Q :=
  Py.max 0.02 (Py.min 0.95 (raw_score row alt_row noise)).

Definition calculate_default_probability (row : Borrower.row)
    (alt_row : Alt.row) : M Q :=
  noise <- draw (np_normal 0 0.1) ;;
  ret (bounded_probability row alt_row noise).

(** *** The three tables *)

Definition borrower_ids (n_borrowers : nat) : list string :=
  map (fun i => ("BRW" ++ Py.zfill 6 (Py.str i))%string) (seq 1 n_borrowers).

Definition loan_ids (n_borrowers : nat) : list string :=
  map (fun i => ("LN" ++ Py.zfill 8 (Py.str i))%string) (seq 1 n_borrowers).

Definition make_borrower_data (n_borrowers : nat) : M BorrowerData.t :=
  age <- draws n_borrowers (np_normal 35 10) ;;
  income <- draws n_borrowers (np_lognormal 10.5 0.8) ;;
  employment_type <-
    choice ["Salaried"; "Self-Employed"; "Business Owner"; "Freelancer"]%string
      n_borrowers [0.4; 0.3; 0.2; 0.1] ;;
  city_tier <-
    choice ["Tier 1"; "Tier 2"; "Tier 3"]%string n_borrowers [0.3; 0.4; 0.3] ;;
  education <-
    choice ["Graduate"; "Post-Graduate"; "Undergraduate"; "Diploma"]%string
      n_borrowers [0.4; 0.25; 0.25; 0.1] ;;
  existing_loans <- draws n_borrowers (np_poisson 1.2) ;;
  credit_history_months <- draws n_borrowers (np_exponential 24) ;;
  bank_account_age_months <- draws n_borrowers (np_exponential 36) ;;
  ret {| BorrowerData.borrower_id := borrower_ids n_borrowers;
         BorrowerData.age := map Np.astype_int age;
         BorrowerData.income := map Np.astype_int income;
         BorrowerData.employment_type := employment_type;
         BorrowerData.city_tier := city_tier;
         BorrowerData.education := education;
         BorrowerData.existing_loans := existing_loans;
         BorrowerData.credit_history_months :=
           map Np.astype_int credit_history_months;
         BorrowerData.bank_account_age_months :=
           map Np.astype_int bank_account_age_months |}.

(** Ensure realistic constraints *)
Definition clip_borrower_data (d : BorrowerData.t) : BorrowerData.t :=
  {| BorrowerData.borrower_id := BorrowerData.borrower_id d;
     BorrowerData.age := Np.clip 18 70 (BorrowerData.age d);
     BorrowerData.income := Np.clip 15000 2000000 (BorrowerData.income d);
     BorrowerData.employment_type := BorrowerData.employment_type d;
     BorrowerData.city_tier := BorrowerData.city_tier d;
     BorrowerData.education := BorrowerData.education d;
     BorrowerData.existing_loans := BorrowerData.existing_loans d;
     BorrowerData.credit_history_months :=
       Np.clip 0 120 (BorrowerData.credit_history_months d);
     BorrowerData.bank_account_age_months :=
       Np.clip 3 240 (BorrowerData.bank_account_age_months d) |}.

Definition make_alt_data (n_borrowers : nat) (borrower_df : BorrowerData.t)
  : M AltData.t :=
  upi <- draws n_borrowers (np_poisson 45) ;;
  utility <- draws n_borrowers (np_beta 8 2) ;;
  gst <- draws n_borrowers (np_binomial 12 0.7) ;;
  recharge <- draws n_borrowers (np_poisson 6) ;;
  ecommerce <- draws n_borrowers (np_poisson 8) ;;
  wallet <- draws n_borrowers (np_lognormal 6 1.5) ;;
  mentions <- draws n_borrowers (np_poisson 2) ;;
  app_usage <- draws n_borrowers (np_exponential 30) ;;
  location <- draws n_borrowers (np_beta 7 3) ;;
  ret {| AltData.borrower_id := BorrowerData.borrower_id borrower_df;
         AltData.upi_transactions_monthly := upi;
         AltData.utility_bill_payment_consistency := utility;
         AltData.gst_returns_filed := gst;
         AltData.mobile_recharge_frequency := recharge;
         AltData.ecommerce_transactions_monthly := ecommerce;
         AltData.digital_wallet_balance_avg := map Np.astype_int wallet;
         AltData.social_media_financial_mentions := mentions;
         AltData.app_usage_financial_minutes_daily :=
           map Np.astype_int app_usage;
         AltData.location_stability_score := location |}.

(** Calculate default probabilities and outcomes *)
Definition default_probs_loop (n_borrowers : nat)
    (borrower_df : BorrowerData.t) (alt_data_df : AltData.t) : M (list Q) :=
  for_each
    (fun i =>
       row <- index (borrower_iloc borrower_df i) ;;
       alt_row <- index (alt_iloc alt_data_df i) ;;
       calculate_default_probability row alt_row)
    (seq 0 n_borrowers).

(** [[datetime.now() - timedelta(days=np.random.randint(1, 365)) for _ in range(n)]] *)
Definition application_dates (n_borrowers : nat) : M (list Py.datetime) :=
  for_each
    (fun _ =>
       now <- datetime_now ;;
       days <- draw (np_randint 1 365) ;;
       ret (now - Py.timedelta_days days)%Z)
    (seq 0 n_borrowers).

(** [[np.random.random() < prob for prob in default_probs]] *)
Definition sample_outcomes (default_probs : list Q) : M (list bool) :=
  for_each (fun prob => u <- draw np_random ;; ret (Py.ltb u prob))
    default_probs.

Definition make_loan_data (n_borrowers : nat) (borrower_df : BorrowerData.t)
    (default_probs : list Q) : M LoanData.t :=
  loan_amount <- draws n_borrowers (np_lognormal 10 0.8) ;;
  loan_tenure_months <-
    choice [12; 18; 24; 36; 48]%Z n_borrowers [0.2; 0.2; 0.3; 0.2; 0.1] ;;
  interest_rate <- draws n_borrowers (np_normal 16 3) ;;
  loan_purpose <-
    choice ["Personal"; "Business"; "Education"; "Medical";
            "Home Improvement"]%string
      n_borrowers [0.4; 0.25; 0.15; 0.1; 0.1] ;;
  application_date <- application_dates n_borrowers ;;
  is_default <- sample_outcomes default_probs ;;
  credit_score <- draws n_borrowers (np_normal 650 100) ;;
  ret {| LoanData.loan_id := loan_ids n_borrowers;
         LoanData.borrower_id := BorrowerData.borrower_id borrower_df;
         LoanData.loan_amount := map Np.astype_int loan_amount;
         LoanData.loan_tenure_months := loan_tenure_months;
         LoanData.interest_rate := interest_rate;
         LoanData.loan_purpose := loan_purpose;
         LoanData.application_date := application_date;
         LoanData.default_probability := default_probs;
         LoanData.is_default := is_default;
         LoanData.credit_score_traditional := map Np.astype_int credit_score |}.

(** Ensure realistic constraints *)
Definition clip_loan_data (d : LoanData.t) : LoanData.t :=
  {| LoanData.loan_id := LoanData.loan_id d;
     LoanData.borrower_id := LoanData.borrower_id d;
     LoanData.loan_amount := Np.clip 10000 1000000 (LoanData.loan_amount d);
     LoanData.loan_tenure_months := LoanData.loan_tenure_months d;
     LoanData.interest_rate := Np.clip_float 8 25 (LoanData.interest_rate d);
     LoanData.loan_purpose := LoanData.loan_purpose d;
     LoanData.application_date := LoanData.application_date d;
     LoanData.default_probability := LoanData.default_probability d;
     LoanData.is_default := LoanData.is_default d;
     LoanData.credit_score_traditional :=
       Np.clip 300 850 (LoanData.credit_score_traditional d) |}.

(** Steps 1 to 3 of the script: the three data frames. *)
Definition generate (seed_value : Z) (n_borrowers : nat)
  : M (BorrowerData.t * AltData.t * LoanData.t) :=
  seed seed_value ;;;
  borrower_data <- make_borrower_data n_borrowers ;;
  borrower_df <- BorrowerDataFrame (clip_borrower_data borrower_data) ;;
  alt_data <- make_alt_data n_borrowers borrower_df ;;
  alt_data_df <- AltDataFrame alt_data ;;
  default_probs <- default_probs_loop n_borrowers borrower_df alt_data_df ;;
  loan_data <- make_loan_data n_borrowers borrower_df default_probs ;;
  loan_df <- LoanDataFrame (clip_loan_data loan_data) ;;
  ret (borrower_df, alt_data_df, loan_df).

(** *** Saving the artifacts *)

Definition dq : string := String (ascii_of_nat 34) EmptyString.

(** The guideline document, a constant of the script. *)
Definition data_generation_guidelines : string :=
    ("
# Sample Data Generation Guidelines for CreditIQ Analytics

## Overview
This document provides guidelines for generating synthetic data to validate the CreditIQ Analytics platform for NBFC credit risk assessment.

## Data Sources and Types

### 1. Traditional Financial Data
- **Borrower Demographics**: Age, income, employment type, education, city tier
- **Credit History**: Existing loans, credit history length, traditional credit scores
- **Loan Details**: Amount, tenure, purpose, interest rates

### 2. Alternative Data Sources
- **UPI Transaction Data**: Monthly transaction frequency and patterns
- **Utility Payment Data**: Consistency in bill payments (electricity, mobile, internet)
- **GST Returns**: Filing frequency and compliance for business borrowers
- **Digital Wallet Usage**: Average balance and transaction frequency
- **E-commerce Behavior**: Online purchase patterns and frequency
- **Location Data**: Stability score based on location consistency
- **Mobile App Usage**: Time spent on financial apps

## ChatGPT Prompts for Data Generation

### Prompt 1: Borrower Profile Generation
" ++ dq ++ "Generate 100 realistic borrower profiles for an Indian NBFC with the following fields:
- Age (18-65), Income (15K-20L INR), Employment type (Salaried/Self-employed/Business), 
- City tier (1/2/3), Education level, Existing loan count, Credit history months.
Make the data representative of India's demographic distribution." ++ dq ++ "

### Prompt 2: Alternative Data Generation  
" ++ dq ++ "Create alternative credit data for Indian borrowers including:
- Monthly UPI transactions (0-100), Utility bill payment consistency (0-1 score),
- GST returns filed (0-12 per year), Mobile recharge frequency, E-commerce transactions,
- Digital wallet average balance, Location stability score (0-1).
Ensure realistic correlations between variables." ++ dq ++ "

### Prompt 3: Loan Default Scenarios
" ++ dq ++ "Generate loan default scenarios considering:
- Higher default risk for: Lower income, irregular alt-data patterns, new credit users
- Lower default risk for: Consistent bill payments, stable location, regular UPI usage
- Include seasonal and economic factors affecting default rates" ++ dq ++ "

## Validation Metrics
- Default rate should be between 3-15% (typical for Indian NBFCs)
- Strong correlation between alternative data consistency and lower default risk
- Income and employment stability should be primary risk factors

## Data Quality Checks
1. No missing values in critical fields
2. Realistic value ranges for all variables
3. Logical correlations between related variables
4. Balanced representation across demographic segments
")%string.

(** [df.to_csv(path, index=False)] *)
Definition to_csv (a : artifact) (path : string) : M unit := write_file path a.

(** Steps 4 and 5: the three tables, then the guideline document. *)
Definition save (tables : BorrowerData.t * AltData.t * LoanData.t) : M unit :=
  let '(borrower_df, alt_data_df, loan_df) := tables in
  to_csv (BorrowerCsv borrower_df) "sample_borrower_data.csv" ;;;
  to_csv (AltCsv alt_data_df) "sample_alternative_data.csv" ;;;
  to_csv (LoanCsv loan_df) "sample_loan_data.csv" ;;;
  write_file "data_generation_guidelines.txt" (Text data_generation_guidelines).

(** The whole script, for a seed and a record count. *)
Definition main (seed_value : Z) (n_borrowers : nat) : M unit :=
  tables <- generate seed_value n_borrowers ;;
  save tables.

(** The script as committed: seed 42 and 1000 borrowers. *)
Definition script : M unit := main 42 1000.

End Script.

(** ** The scoring arithmetic in binary64 *)

(** The heuristic once more, on the floats of the interpreter: the same
    branches in the same order, every [-=] and [+=] one rounded binary64
    operation, every literal the binary64 value nearest to the decimal it
    spells. *)
Module B64.

Local Open Scope float_scope.

(** The builtins [max(a, b)] and [min(a, b)]: the second argument replaces
    the first only when it is strictly greater, respectively smaller. *)
Definition max (a b : float) : float := if PrimFloat.ltb a b then b else a.
Definition min (a b : float) : float := if PrimFloat.ltb b a then b else a.

(** The fields of an alternative-data row that the heuristic reads. *)
Record alt_row : Type := {
  utility_bill_payment_consistency : float;
  upi_transactions_monthly : Z;
  location_stability_score : float
}.

(** Age factor (middle-aged lower risk) *)
Definition age_factor (row : Borrower.row) (risk_score : float) : float :=
  if ((25 <=? Borrower.age row)%Z && (Borrower.age row <=? 45)%Z)%bool
  then risk_score - 0.1
  else risk_score + 0.05.

(** Income factor *)
Definition income_factor (row : Borrower.row) (risk_score : float) : float :=
  if (50000 <? Borrower.income row)%Z then risk_score - 0.15
  else if (Borrower.income row <? 25000)%Z then risk_score + 0.2
  else risk_score.

(** Employment stability *)
Definition employment_stability (row : Borrower.row) (risk_score : float)
    : float :=
  if String.eqb (Borrower.employment_type row) "Salaried"
  then risk_score - 0.1
  else if String.eqb (Borrower.employment_type row) "Self-Employed"
  then risk_score + 0.05
  else risk_score.

(** Alternative data factors *)
Definition alternative_data_factors (alt : alt_row) (risk_score : float)
    : float :=
  let risk_score :=
    if PrimFloat.ltb 0.8 (utility_bill_payment_consistency alt)
    then risk_score - 0.1 else risk_score in
  let risk_score :=
    if (30 <? upi_transactions_monthly alt)%Z
    then risk_score - 0.05 else risk_score in
  let risk_score :=
    if PrimFloat.ltb 0.7 (location_stability_score alt)
    then risk_score - 0.08 else risk_score in
  risk_score.

(** Credit history *)
Definition credit_history (row : Borrower.row) (risk_score : float) : float :=
  if (24 <? Borrower.credit_history_months row)%Z
  then risk_score - 0.1 else risk_score.

Definition risk_before_noise (row : Borrower.row) (alt : alt_row) : float :=
  let risk_score := 0 in
  let risk_score := age_factor row risk_score in
  let risk_score := income_factor row risk_score in
  let risk_score := employment_stability row risk_score in
  let risk_score := alternative_data_factors alt risk_score in
  let risk_score := credit_history row risk_score in
  risk_score.

Definition raw_score (row : Borrower.row) (alt : alt_row) (noise : float)
    : float :=
  let risk_score := risk_before_noise row alt in
  let risk_score := risk_score + noise in
  0.15 + risk_score.

Definition bounded_probability (row : Borrower.row) (alt : alt_row)
    (noise : float) : float :=
  max 0.02 (min 0.95 (raw_score row alt noise)).

End B64.

(** ** Vocabulary of the specifications *)

Section Vocabulary.

Context {R : RandomState}.

(** [x] is what sampler [f] returns from some state of the generator. *)
Definition drawn {A} (f : rng_state -> A * rng_state) (x : A) : Prop :=
  exists s, x = fst (f s).

(** [m] returns normally from every world, with a result satisfying [P],
    and leaves the files as they were. *)
Definition generates {A} (m : M A) (P : A -> Prop) : Prop :=
  forall w, exists a w', m w = (Ok a, w') /\ fs w' = fs w /\ P a.

Definition betweenZ (lo hi x : Z) : Prop := (lo <= x <= hi)%Z.
Definition betweenQ (lo hi x : Q) : Prop := lo <= x /\ x <= hi.

(** A table of [n] rows. *)
Definition borrower_shape (n : nat) (d : BorrowerData.t) : Prop :=
  length (BorrowerData.borrower_id d) = n /\
  length (BorrowerData.age d) = n /\
  length (BorrowerData.income d) = n /\
  length (BorrowerData.employment_type d) = n /\
  length (BorrowerData.city_tier d) = n /\
  length (BorrowerData.education d) = n /\
  length (BorrowerData.existing_loans d) = n /\
  length (BorrowerData.credit_history_months d) = n /\
  length (BorrowerData.bank_account_age_months d) = n.

Definition alt_shape (n : nat) (d : AltData.t) : Prop :=
  length (AltData.borrower_id d) = n /\
  length (AltData.upi_transactions_monthly d) = n /\
  length (AltData.utility_bill_payment_consistency d) = n /\
  length (AltData.gst_returns_filed d) = n /\
  length (AltData.mobile_recharge_frequency d) = n /\
  length (AltData.ecommerce_transactions_monthly d) = n /\
  length (AltData.digital_wallet_balance_avg d) = n /\
  length (AltData.social_media_financial_mentions d) = n /\
  length (AltData.app_usage_financial_minutes_daily d) = n /\
  length (AltData.location_stability_score d) = n.

Definition loan_shape (n : nat) (d : LoanData.t) : Prop :=
  length (LoanData.loan_id d) = n /\
  length (LoanData.borrower_id d) = n /\
  length (LoanData.loan_amount d) = n /\
  length (LoanData.loan_tenure_months d) = n /\
  length (LoanData.interest_rate d) = n /\
  length (LoanData.loan_purpose d) = n /\
  length (LoanData.application_date d) = n /\
  length (LoanData.default_probability d) = n /\
  length (LoanData.is_default d) = n /\
  length (LoanData.credit_score_traditional d) = n.

(** What holds of the generated tables: the identifiers, the shape and
    the clipped columns of the borrower table; where each column of the
    alternative-data table was drawn from; how each default probability
    and each outcome was obtained. *)
Definition borrower_ok (n : nat) (d : BorrowerData.t) : Prop :=
  BorrowerData.borrower_id d = borrower_ids n /\
  borrower_shape n d /\
  Forall (betweenZ 18 70) (BorrowerData.age d) /\
  Forall (betweenZ 15000 2000000) (BorrowerData.income d) /\
  Forall (betweenZ 0 120) (BorrowerData.credit_history_months d) /\
  Forall (betweenZ 3 240) (BorrowerData.bank_account_age_months d).

Definition truncated (f : rng_state -> Q * rng_state) (z : Z) : Prop :=
  exists x, drawn f x /\ z = Np.astype_int x.

Definition alt_ok (n : nat) (d : AltData.t) : Prop :=
  AltData.borrower_id d = borrower_ids n /\
  alt_shape n d /\
  Forall (drawn (np_poisson 45)) (AltData.upi_transactions_monthly d) /\
  Forall (drawn (np_beta 8 2)) (AltData.utility_bill_payment_consistency d) /\
  Forall (drawn (np_binomial 12 0.7)) (AltData.gst_returns_filed d) /\
  Forall (drawn (np_poisson 6)) (AltData.mobile_recharge_frequency d) /\
  Forall (drawn (np_poisson 8)) (AltData.ecommerce_transactions_monthly d) /\
  Forall (truncated (np_lognormal 6 1.5)) (AltData.digital_wallet_balance_avg d) /\
  Forall (drawn (np_poisson 2)) (AltData.social_media_financial_mentions d) /\
  Forall (truncated (np_exponential 30))
    (AltData.app_usage_financial_minutes_daily d) /\
  Forall (drawn (np_beta 7 3)) (AltData.location_stability_score d).

Definition scored (borrower_df : BorrowerData.t) (alt_data_df : AltData.t)
    (i : nat) (p : Q) : Prop :=
  exists row alt_row noise,
    borrower_iloc borrower_df i = Some row /\
    alt_iloc alt_data_df i = Some alt_row /\
    drawn (np_normal 0 0.1) noise /\
    p = bounded_probability row alt_row noise.

Definition sampled (p : Q) (outcome : bool) : Prop :=
  exists u, drawn np_random u /\ outcome = Py.ltb u p.

Definition loan_ok (n : nat) (d : LoanData.t) : Prop :=
  LoanData.borrower_id d = borrower_ids n /\
  loan_shape n d /\
  Forall (betweenZ 10000 1000000) (LoanData.loan_amount d) /\
  Forall (betweenQ 8 25) (LoanData.interest_rate d) /\
  Forall (betweenZ 300 850) (LoanData.credit_score_traditional d) /\
  Forall2 sampled (LoanData.default_probability d) (LoanData.is_default d).

Definition tables_ok (n : nat)
    (tables : BorrowerData.t * AltData.t * LoanData.t) : Prop :=
  let '(borrower_df, alt_data_df, loan_df) := tables in
  borrower_ok n borrower_df /\
  alt_ok n alt_data_df /\
  loan_ok n loan_df /\
  Forall2 (scored borrower_df alt_data_df) (seq 0 n)
    (LoanData.default_probability loan_df).

(** The number a string of decimal digits denotes. *)
Definition numeral_value (s : string) : option nat :=
  option_map Nat.of_uint (NilEmpty.uint_of_string s).

(** The positions of the rows of a table that carry identifier [id]. *)
Definition borrower_matches (df : BorrowerData.t) (id : string) : list nat :=
  List.filter
    (fun j => match borrower_iloc df j with
              | Some r => String.eqb (Borrower.borrower_id r) id
              | None => false
              end)
    (seq 0 (length (BorrowerData.borrower_id df))).

Definition alt_matches (df : AltData.t) (id : string) : list nat :=
  List.filter
    (fun j => match alt_iloc df j with
              | Some r => String.eqb (Alt.borrower_id r) id
              | None => false
              end)
    (seq 0 (length (AltData.borrower_id df))).

(** A copy of an alternative-data record with another utility-payment
    consistency. *)
Definition with_utility (alt_row : Alt.row) (u : Q) : Alt.row :=
  {| Alt.borrower_id := Alt.borrower_id alt_row;
     Alt.upi_transactions_monthly := Alt.upi_transactions_monthly alt_row;
     Alt.utility_bill_payment_consistency := u;
     Alt.gst_returns_filed := Alt.gst_returns_filed alt_row;
     Alt.mobile_recharge_frequency := Alt.mobile_recharge_frequency alt_row;
     Alt.ecommerce_transactions_monthly :=
       Alt.ecommerce_transactions_monthly alt_row;
     Alt.digital_wallet_balance_avg := Alt.digital_wallet_balance_avg alt_row;
     Alt.social_media_financial_mentions :=
       Alt.social_media_financial_mentions alt_row;
     Alt.app_usage_financial_minutes_daily :=
       Alt.app_usage_financial_minutes_daily alt_row;
     Alt.location_stability_score := Alt.location_stability_score alt_row |}.

(** *** The run, cut where the outcomes are sampled *)

Notation "x <- m ;; k" := (bind m (fun x => k))
  (at level 100, m at next level, right associativity).
Notation "m ;;; k" := (bind m (fun _ => k))
  (at level 100, right associativity).

(** The values of [n] successive calls of [np.random.random()] from
    generator state [s]. *)
Fixpoint uniforms (n : nat) (s : rng_state) : list Q :=
  match n with
  | O => []
  | S k => let (u, s') := np_random s in u :: uniforms k s'
  end.

(** The script up to the entry [is_default] of [loan_data]: the borrower
    and alternative-data frames, the default probabilities, and the
    columns of [loan_data] evaluated so far. *)
Definition before_outcomes (wall_clock : nat -> Py.datetime)
    (seed_value : Z) (n_borrowers : nat)
  : M (BorrowerData.t * AltData.t * list Q
       * (list Q * list Z * list Q * list string * list Py.datetime)) :=
  seed seed_value ;;;
  borrower_data <- make_borrower_data n_borrowers ;;
  borrower_df <- BorrowerDataFrame (clip_borrower_data borrower_data) ;;
  alt_data <- make_alt_data n_borrowers borrower_df ;;
  alt_data_df <- AltDataFrame alt_data ;;
  default_probs <- default_probs_loop n_borrowers borrower_df alt_data_df ;;
  loan_amount <- draws n_borrowers (np_lognormal 10 0.8) ;;
  loan_tenure_months <-
    choice [12; 18; 24; 36; 48]%Z n_borrowers [0.2; 0.2; 0.3; 0.2; 0.1] ;;
  interest_rate <- draws n_borrowers (np_normal 16 3) ;;
  loan_purpose <-
    choice ["Personal"; "Business"; "Education"; "Medical";
            "Home Improvement"]%string
      n_borrowers [0.4; 0.25; 0.15; 0.1; 0.1] ;;
  application_date <- application_dates wall_clock n_borrowers ;;
  ret (borrower_df, alt_data_df, default_probs,
       (loan_amount, loan_tenure_months, interest_rate, loan_purpose,
        application_date)).

(** The rest of steps 1 to 3. *)
Definition after_outcomes (n_borrowers : nat)
    (pre : BorrowerData.t * AltData.t * list Q
           * (list Q * list Z * list Q * list string * list Py.datetime))
  : M (BorrowerData.t * AltData.t * LoanData.t) :=
  let '(borrower_df, alt_data_df, default_probs,
        (loan_amount, loan_tenure_months, interest_rate, loan_purpose,
         application_date)) := pre in
  is_default <- sample_outcomes default_probs ;;
  credit_score <- draws n_borrowers (np_normal 650 100) ;;
  loan_df <-
    LoanDataFrame
      (clip_loan_data
         {| LoanData.loan_id := loan_ids n_borrowers;
            LoanData.borrower_id := BorrowerData.borrower_id borrower_df;
            LoanData.loan_amount := map Np.astype_int loan_amount;
            LoanData.loan_tenure_months := loan_tenure_months;
            LoanData.interest_rate := interest_rate;
            LoanData.loan_purpose := loan_purpose;
            LoanData.application_date := application_date;
            LoanData.default_probability := default_probs;
            LoanData.is_default := is_default;
            LoanData.credit_score_traditional :=
              map Np.astype_int credit_score |}) ;;
  ret (borrower_df, alt_data_df, loan_df).

(** The clock of a run started [d] microseconds after the run with clock
    [wall_clock]. *)
Definition later (wall_clock : nat -> Py.datetime) (d : Z) (k : nat)
  : Py.datetime := (wall_clock k + d)%Z.

(** A loan table with every application date moved by [d]. *)
Definition shift_dates (d : Z) (l : LoanData.t) : LoanData.t :=
  {| LoanData.loan_id := LoanData.loan_id l;
     LoanData.borrower_id := LoanData.borrower_id l;
     LoanData.loan_amount := LoanData.loan_amount l;
     LoanData.loan_tenure_months := LoanData.loan_tenure_months l;
     LoanData.interest_rate := LoanData.interest_rate l;
     LoanData.loan_purpose := LoanData.loan_purpose l;
     LoanData.application_date :=
       map (fun t => (t + d)%Z) (LoanData.application_date l);
     LoanData.default_probability := LoanData.default_probability l;
     LoanData.is_default := LoanData.is_default l;
     LoanData.credit_score_traditional := LoanData.credit_score_traditional l |}.

(** The four writes of the script, in order. *)
Definition artifacts (tables : BorrowerData.t * AltData.t * LoanData.t)
  : list (string * artifact) :=
  let '(borrower_df, alt_data_df, loan_df) := tables in
  [("sample_borrower_data.csv", BorrowerCsv borrower_df);
   ("sample_alternative_data.csv", AltCsv alt_data_df);
   ("sample_loan_data.csv", LoanCsv loan_df);
   ("data_generation_guidelines.txt", Text data_generation_guidelines)]%string.

(** The files after the writes [writes] have succeeded. *)
Definition written (files : gmap string artifact)
    (writes : list (string * artifact)) : gmap string artifact :=
  foldl (fun m pa => <[fst pa := snd pa]> m) files writes.

End Vocabulary.

(** ** A deterministic stand-in for the generator

    A linear congruential generator behind the [RandomState] interface,
    used to run the script on concrete inputs.  Every sampler advances the
    state once and derives its value, inside the support of its
    distribution, from the new state. *)

Module Lcg.

Definition modulus : Z := 2147483648.

Definition next (s : Z) : Z := ((1103515245 * s + 12345) mod modulus)%Z.

(** The new state as a fraction of the modulus, in [[0, 1)]. *)
Definition unit_of (s : Z) : Q := (s mod modulus)%Z # 2147483648.

(** Its high bits, as an integer. *)
Definition high (s : Z) : Z := (s / 65536)%Z.

Definition random : RandomState := {|
  rng_state := Z;
  np_seed := fun k => (k mod modulus)%Z;
  np_normal := fun mu sg s =>
    let s' := next s in (mu + sg * (4 * unit_of s' - 2), s');
  np_lognormal := fun m sg s =>
    let s' := next s in (1 + 80000 * unit_of s', s');
  np_exponential := fun sc s =>
    let s' := next s in (sc * (3 * unit_of s'), s');
  np_beta := fun a b s => let s' := next s in (unit_of s', s');
  np_poisson := fun lam s => let s' := next s in ((high s' mod 64)%Z, s');
  np_binomial := fun k p s =>
    let s' := next s in ((high s' mod (k + 1))%Z, s');
  np_choice := fun p s =>
    let s' := next s in (Z.to_nat (high s' mod Z.of_nat (length p)), s');
  np_randint := fun lo hi s =>
    let s' := next s in ((lo + high s' mod (hi - lo))%Z, s');
  np_random := fun s => let s' := next s in (unit_of s', s')
|}.

(** A state from which the next normal draw is its mean. *)
Definition centred : Z := 1014474371.

(** An empty directory, an untouched clock. *)
Definition world (s : Z) : @World random :=
  @Build_World random s 0 ∅.

(** A clock that starts at [t0] and advances a second per reading. *)
Definition clock (t0 : Z) (k : nat) : Py.datetime :=
  (t0 + 1000000 * Z.of_nat k)%Z.

(** A disk on which every path can be written, and one on which the
    loan table cannot. *)
Definition disk_ok (path : string) : bool := true.
Definition disk_refusing_loans (path : string) : bool :=
  negb (String.eqb path "sample_loan_data.csv").

End Lcg.

(** ** Sample records *)

Module Sample.

(** A borrower with a given age and income; the other fields are those
    of the worked scenario. *)
Definition borrower (age income : Z) : Borrower.row :=
  {| Borrower.borrower_id := "BRW000001";
     Borrower.age := age;
     Borrower.income := income;
     Borrower.employment_type := "Salaried";
     Borrower.city_tier := "Tier 1";
     Borrower.education := "Graduate";
     Borrower.existing_loans := 1;
     Borrower.credit_history_months := 30;
     Borrower.bank_account_age_months := 36 |}.

Definition alt : Alt.row :=
  {| Alt.borrower_id := "BRW000001";
     Alt.upi_transactions_monthly := 40;
     Alt.utility_bill_payment_consistency := 0.85;
     Alt.gst_returns_filed := 8;
     Alt.mobile_recharge_frequency := 6;
     Alt.ecommerce_transactions_monthly := 8;
     Alt.digital_wallet_balance_avg := 400;
     Alt.social_media_financial_mentions := 2;
     Alt.app_usage_financial_minutes_daily := 30;
     Alt.location_stability_score := 0.75 |}.

(** The same three readings as binary64 values. *)
Definition alt64 : B64.alt_row :=
  {| B64.utility_bill_payment_consistency := 0.85%float;
     B64.upi_transactions_monthly := 40;
     B64.location_stability_score := 0.75%float |}.

End Sample.

(** ** Vocabulary of the further properties *)

Section MoreVocabulary.

Context {R : RandomState}.

(** A copy of a borrower profile with another employment type. *)
Definition with_employment (row : Borrower.row) (e : string) : Borrower.row :=
  {| Borrower.borrower_id := Borrower.borrower_id row;
     Borrower.age := Borrower.age row;
     Borrower.income := Borrower.income row;
     Borrower.employment_type := e;
     Borrower.city_tier := Borrower.city_tier row;
     Borrower.education := Borrower.education row;
     Borrower.existing_loans := Borrower.existing_loans row;
     Borrower.credit_history_months := Borrower.credit_history_months row;
     Borrower.bank_account_age_months := Borrower.bank_account_age_months row |}.

(** The world with the generator in state [s]. *)
Definition set_rng (s : rng_state) (w : World) : World :=
  {| rng := s; clock_reads := clock_reads w; fs := fs w |}.

(** [m] does not read the clock: it leaves the count of readings as it
    found it, whether it returns or raises. *)
Definition clock_quiet {A} (m : M A) : Prop :=
  forall w, clock_reads (snd (m w)) = clock_reads w.

(** Two worlds in which the generator is in the same state and the clocks
    [clock] and [clock'] will give the same readings from now on. *)
Definition same_future (clock clock' : nat -> Py.datetime) (w w' : World) : Prop :=
  rng w = rng w' /\
  forall k, clock (clock_reads w + k)%nat = clock' (clock_reads w' + k)%nat.

(** [m] and [m'] return the same result from such worlds, and leave such
    worlds. *)
Definition agree (clock clock' : nat -> Py.datetime) {A} (m m' : M A) : Prop :=
  forall w w', same_future clock clock' w w' ->
    fst (m w) = fst (m' w') /\
    same_future clock clock' (snd (m w)) (snd (m' w')).

(** An alternative-data record that shares with [Sample.alt] the three
    fields the heuristic reads and differs in the others. *)
Definition sample_alt_elsewhere : Alt.row :=
  {| Alt.borrower_id := "BRW000777";
     Alt.upi_transactions_monthly := 40;
     Alt.utility_bill_payment_consistency := 0.85;
     Alt.gst_returns_filed := 0;
     Alt.mobile_recharge_frequency := 19;
     Alt.ecommerce_transactions_monthly := 0;
     Alt.digital_wallet_balance_avg := 250000;
     Alt.social_media_financial_mentions := 12;
     Alt.app_usage_financial_minutes_daily := 0;
     Alt.location_stability_score := 0.75 |}.

(** The paths the script writes. *)
Definition output_paths : list string :=
  ["sample_borrower_data.csv"; "sample_alternative_data.csv";
   "sample_loan_data.csv"; "data_generation_guidelines.txt"]%string.

End MoreVocabulary.

(** * Properties *)

(** ** Comparisons, clamping and truncation *)

Lemma ltb_lt (x y : Q) : Py.ltb x y = true <-> x < y.
Proof.
  unfold Py.ltb. rewrite negb_true_iff. split.
  - intros H. apply Qnot_le_lt. intros Hle.
    apply Qle_bool_iff in Hle. congruence.
  - intros H. destruct (Qle_bool y x) eqn:E; [|reflexivity].
    apply Qle_bool_iff in E. lra.
Qed.

Lemma ltb_ge (x y : Q) : Py.ltb x y = false <-> y <= x.
Proof.
  unfold Py.ltb. rewrite negb_false_iff. apply Qle_bool_iff.
Qed.

Ltac case_ltb :=
  match goal with
  | |- context [Py.ltb ?a ?b] =>
      let E := fresh "E" in
      destruct (Py.ltb a b) eqn:E;
      [apply ltb_lt in E | apply ltb_ge in E]
  | H : context [Py.ltb ?a ?b] |- _ =>
      let E := fresh "E" in
      destruct (Py.ltb a b) eqn:E;
      [apply ltb_lt in E | apply ltb_ge in E]
  end.

Lemma max_min_range (lo hi x : Q) :
  lo <= hi -> lo <= Py.max lo (Py.min hi x) /\ Py.max lo (Py.min hi x) <= hi.
Proof.
  intros Hlh. unfold Py.max, Py.min. repeat case_ltb; lra.
Qed.

Lemma max_min_floor (lo hi x : Q) :
  lo <= hi -> x <= lo -> Py.max lo (Py.min hi x) = lo.
Proof.
  intros Hlh Hx. unfold Py.max, Py.min.
  repeat case_ltb; try reflexivity; exfalso; lra.
Qed.

Lemma max_min_mono (lo hi x y : Q) :
  x <= y -> Py.max lo (Py.min hi x) <= Py.max lo (Py.min hi y).
Proof.
  intros Hxy. unfold Py.max, Py.min. repeat case_ltb; lra.
Qed.

(** What the nested [max(0.02, min(0.95, x))] returns, by the position of
    [x]: the lower bound itself, the upper bound itself, or [x]. *)
Lemma clamp_cases (x : Q) :
  (x <= 0.02 -> Py.max 0.02 (Py.min 0.95 x) = 0.02) /\
  (0.95 <= x -> Py.max 0.02 (Py.min 0.95 x) = 0.95) /\
  (0.02 <= x -> x <= 0.95 -> Py.max 0.02 (Py.min 0.95 x) == x).
Proof.
  unfold Py.max, Py.min.
  split; [|split]; intros; repeat case_ltb;
    first [reflexivity | lra | exfalso; lra].
Qed.

Lemma clipZ_range (lo hi x : Z) :
  (lo <= hi)%Z -> betweenZ lo hi (Np.clipZ lo hi x).
Proof. unfold betweenZ, Np.clipZ. lia. Qed.

Lemma clipQ_range (lo hi x : Q) :
  lo <= hi -> betweenQ lo hi (Np.clipQ lo hi x).
Proof.
  intros Hlh. unfold betweenQ, Np.clipQ. repeat case_ltb; lra.
Qed.

Lemma astype_int_nonneg (x : Q) : 0 <= x -> (0 <= Np.astype_int x)%Z.
Proof.
  destruct x as [p q]. unfold Qle, Np.astype_int. simpl. intros H.
  apply Z.quot_pos; lia.
Qed.

Lemma clip_range (lo hi : Z) (a : list Z) :
  (lo <= hi)%Z -> Forall (betweenZ lo hi) (Np.clip lo hi a).
Proof.
  intros H. unfold Np.clip. apply Forall_forall. intros x Hx.
  apply list_elem_of_fmap in Hx. destruct Hx as [y [-> _]].
  by apply clipZ_range.
Qed.

Lemma clip_float_range (lo hi : Q) (a : list Q) :
  lo <= hi -> Forall (betweenQ lo hi) (Np.clip_float lo hi a).
Proof.
  intros H. unfold Np.clip_float. apply Forall_forall. intros x Hx.
  apply list_elem_of_fmap in Hx. destruct Hx as [y [-> _]].
  by apply clipQ_range.
Qed.

(** ** The scoring heuristic *)

Lemma bounded_probability_range row alt_row noise :
  betweenQ 0.02 0.95 (bounded_probability row alt_row noise).
Proof. unfold bounded_probability. apply max_min_range. lra. Qed.

Section Heuristic.

Context {R : RandomState}.

(** The call draws the random factor once and returns the clamped score
    for it; the clock and the files stay as they were. *)
Lemma calculate_default_probability_run row alt_row (w : World) :
  calculate_default_probability row alt_row w =
    (Ok (bounded_probability row alt_row (fst (np_normal 0 0.1 (rng w)))),
     {| rng := snd (np_normal 0 0.1 (rng w));
        clock_reads := clock_reads w;
        fs := fs w |}).
Proof.
  unfold calculate_default_probability, bind, draw, ret.
  destruct (np_normal 0 0.1 (rng w)); reflexivity.
Qed.

End Heuristic.

Section Scenarios.

Context {R : RandomState}.

(** The worked scenario in exact arithmetic.  For the borrower of the
    scenario (age 35, income 60000, Salaried, utility consistency 0.85,
    40 UPI transactions, location stability 0.75, 30 months of credit
    history) and a random factor of 0, the decimals
    0.15 - 0.10 - 0.15 - 0.10 - 0.10 - 0.05 - 0.08 - 0.10 sum to -0.53
    and the probability returned is 0.02; the call itself returns 0.02
    whenever the generator draws a random factor of 0. *)
Theorem scenario_clamped_to_floor (row : Borrower.row) (alt_row : Alt.row) :
  Borrower.age row = 35%Z ->
  Borrower.income row = 60000%Z ->
  Borrower.employment_type row = "Salaried"%string ->
  Alt.utility_bill_payment_consistency alt_row == 0.85 ->
  Alt.upi_transactions_monthly alt_row = 40%Z ->
  Alt.location_stability_score alt_row == 0.75 ->
  Borrower.credit_history_months row = 30%Z ->
  raw_score row alt_row 0
    == 0.15 - 0.10 - 0.15 - 0.10 - 0.10 - 0.05 - 0.08 - 0.10 /\
  raw_score row alt_row 0 == -0.53 /\
  bounded_probability row alt_row 0 = 0.02 /\
  forall w : World,
    fst (np_normal 0 0.1 (rng w)) == 0 ->
    fst (calculate_default_probability row alt_row w) = Ok 0.02.
Proof.
  intros Hage Hinc Hemp Hut Hupi Hloc Hch.
  assert (Hu : Py.ltb 0.8 (Alt.utility_bill_payment_consistency alt_row) = true)
    by (apply ltb_lt; lra).
  assert (Hl : Py.ltb 0.7 (Alt.location_stability_score alt_row) = true)
    by (apply ltb_lt; lra).
  assert (Hrisk : risk_before_noise row alt_row == -0.68).
  { unfold risk_before_noise, age_factor, income_factor,
      employment_stability, alternative_data_factors, credit_history.
    rewrite Hage, Hinc, Hemp, Hupi, Hch, Hu, Hl. simpl. lra. }
  assert (Hraw : forall noise, noise == 0 -> raw_score row alt_row noise == -0.53).
  { intros noise Hn. unfold raw_score. cbv zeta. lra. }
  repeat split.
  - rewrite (Hraw 0); lra.
  - apply Hraw; lra.
  - unfold bounded_probability. apply max_min_floor; [lra|].
    rewrite (Hraw 0); lra.
  - intros w Hn. rewrite calculate_default_probability_run. simpl.
    f_equal. unfold bounded_probability. apply max_min_floor; [lra|].
    rewrite (Hraw _ Hn). lra.
Qed.

(** C4.  The age bounds are inclusive and the income bounds strict: at
    age 25 and at age 45 the age factor subtracts 0.10, and at income
    50000 and at income 25000 the income factor leaves the score as it
    is; with both at a boundary the score before clamping is the base
    rate less 0.10, followed by the remaining factors. *)
Theorem boundary_branches :
  (forall row risk_score,
      Borrower.age row = 25%Z \/ Borrower.age row = 45%Z ->
      age_factor row risk_score = risk_score - 0.1) /\
  (forall row risk_score,
      Borrower.income row = 50000%Z \/ Borrower.income row = 25000%Z ->
      income_factor row risk_score = risk_score) /\
  (forall row alt_row noise,
      Borrower.age row = 25%Z \/ Borrower.age row = 45%Z ->
      Borrower.income row = 50000%Z \/ Borrower.income row = 25000%Z ->
      raw_score row alt_row noise =
        0.15 + (credit_history row
                  (alternative_data_factors alt_row
                     (employment_stability row (0 - 0.1))) + noise)).
Proof.
  assert (Ha : forall row r,
             Borrower.age row = 25%Z \/ Borrower.age row = 45%Z ->
             age_factor row r = r - 0.1).
  { intros row r [H|H]; unfold age_factor; rewrite H; reflexivity. }
  assert (Hi : forall row r,
             Borrower.income row = 50000%Z \/ Borrower.income row = 25000%Z ->
             income_factor row r = r).
  { intros row r [H|H]; unfold income_factor; rewrite H; reflexivity. }
  repeat split; auto.
  intros row alt_row noise Hage Hinc.
  unfold raw_score, risk_before_noise. cbv zeta.
  rewrite (Ha _ _ Hage), (Hi _ _ Hinc). reflexivity.
Qed.

(** C5.  With the random factor at 0 and every other input fixed,
    raising the utility-payment consistency from 0.5 to 0.9 does not
    increase the probability returned. *)
Theorem utility_consistency_monotone (row : Borrower.row) (alt_row : Alt.row) :
  bounded_probability row (with_utility alt_row 0.9) 0
    <= bounded_probability row (with_utility alt_row 0.5) 0.
Proof.
  unfold bounded_probability. apply max_min_mono.
  unfold raw_score, risk_before_noise. cbv zeta.
  generalize (employment_stability row (income_factor row (age_factor row 0))).
  intros base.
  unfold alternative_data_factors, with_utility, credit_history. simpl.
  replace (Py.ltb 0.8 0.9) with true by reflexivity.
  replace (Py.ltb 0.8 0.5) with false by reflexivity.
  destruct (30 <? Alt.upi_transactions_monthly alt_row)%Z;
    destruct (Py.ltb 0.7 (Alt.location_stability_score alt_row));
    destruct (24 <? Borrower.credit_history_months row)%Z; lra.
Qed.

(** C8, as the code has it.  The heuristic returns one value, the clamped
    probability for the random factor it draws; its effect on the program
    state is that one draw from the process-wide generator, and the clock
    and the files are left as they were. *)
Theorem heuristic_effect (row : Borrower.row) (alt_row : Alt.row) (w : World) :
  let noise := np_normal 0 0.1 (rng w) in
  let out := calculate_default_probability row alt_row w in
  fst out = Ok (bounded_probability row alt_row (fst noise)) /\
  rng (snd out) = snd noise /\
  clock_reads (snd out) = clock_reads w /\
  fs (snd out) = fs w.
Proof.
  cbv zeta. rewrite calculate_default_probability_run. simpl. auto.
Qed.

End Scenarios.

(** C3.  For the borrower of the worked scenario (age 35, income 60000,
    Salaried, utility consistency 0.85, 40 UPI transactions, location
    stability 0.75, 30 months of credit history) and a random factor of 0,
    the score before clamping, computed on binary64 floats as the
    interpreter does, is -0.5299999999999999: the float next above the one
    that the literal -0.53 denotes, so that comparing it with -0.53 for
    equality gives false.  The probability returned is 0.02. *)
Theorem scenario_in_binary64 (row : Borrower.row) (alt : B64.alt_row) :
  Borrower.age row = 35%Z ->
  Borrower.income row = 60000%Z ->
  Borrower.employment_type row = "Salaried"%string ->
  B64.utility_bill_payment_consistency alt = 0.85%float ->
  B64.upi_transactions_monthly alt = 40%Z ->
  B64.location_stability_score alt = 0.75%float ->
  Borrower.credit_history_months row = 30%Z ->
  B64.risk_before_noise row alt = (-0.6799999999999999)%float /\
  B64.raw_score row alt 0 = (-0.5299999999999999)%float /\
  PrimFloat.next_down (B64.raw_score row alt 0) = (-0.53)%float /\
  PrimFloat.eqb (B64.raw_score row alt 0) (-0.53) = false /\
  B64.bounded_probability row alt 0 = 0.02%float.
Proof.
  intros Hage Hinc Hemp Hut Hupi Hloc Hch.
  assert (Hrisk : B64.risk_before_noise row alt = (-0.6799999999999999)%float).
  { unfold B64.risk_before_noise, B64.age_factor, B64.income_factor,
      B64.employment_stability, B64.alternative_data_factors,
      B64.credit_history.
    rewrite Hage, Hinc, Hemp, Hut, Hupi, Hloc, Hch.
    vm_compute. reflexivity. }
  assert (Hraw : B64.raw_score row alt 0 = (-0.5299999999999999)%float).
  { unfold B64.raw_score. rewrite Hrisk. vm_compute. reflexivity. }
  split; [exact Hrisk|]. split; [exact Hraw|].
  unfold B64.bounded_probability. rewrite Hraw.
  split; [vm_compute; reflexivity|].
  split; vm_compute; reflexivity.
Qed.

(** The score of the worked scenario, as the interpreter computes it, is
    not the float that the literal -0.53 denotes: it lies strictly above
    it. *)
Lemma scenario_score_is_not_the_decimal_sum :
  PrimFloat.eqb
    (B64.raw_score (Sample.borrower 35 60000) Sample.alt64 0) (-0.53) = false /\
  PrimFloat.ltb
    (-0.53) (B64.raw_score (Sample.borrower 35 60000) Sample.alt64 0) = true /\
  B64.raw_score (Sample.borrower 35 60000) Sample.alt64 0 <> (-0.53)%float.
Proof.
  split; [vm_compute; reflexivity|].
  split; [vm_compute; reflexivity|].
  intros H.
  assert (E : PrimFloat.eqb
                (B64.raw_score (Sample.borrower 35 60000) Sample.alt64 0)
                (-0.53) = false) by (vm_compute; reflexivity).
  rewrite H in E. vm_compute in E. discriminate.
Qed.

(** The worked scenario on the sample borrower, in binary64. *)
Lemma scenario_in_binary64_run :
  B64.raw_score (Sample.borrower 35 60000) Sample.alt64 0
    = (-0.5299999999999999)%float /\
  B64.bounded_probability (Sample.borrower 35 60000) Sample.alt64 0
    = 0.02%float.
Proof.
  destruct (scenario_in_binary64 (Sample.borrower 35 60000) Sample.alt64
              eq_refl eq_refl eq_refl eq_refl eq_refl eq_refl eq_refl)
    as (_ & H2 & _ & _ & H5).
  split; [exact H2 | exact H5].
Defined.

(** The worked scenario in exact arithmetic, run on the stand-in generator
    from a state whose next normal draw is its mean. *)
Lemma scenario_clamped_to_floor_run :
  raw_score (Sample.borrower 35 60000) Sample.alt 0 == -0.53 /\
  bounded_probability (Sample.borrower 35 60000) Sample.alt 0 = 0.02 /\
  fst (@calculate_default_probability Lcg.random
         (Sample.borrower 35 60000) Sample.alt (Lcg.world Lcg.centred))
    = Ok 0.02.
Proof.
  destruct (@scenario_clamped_to_floor Lcg.random
              (Sample.borrower 35 60000) Sample.alt
              eq_refl eq_refl eq_refl (Qeq_refl _) eq_refl (Qeq_refl _) eq_refl)
    as (_ & H2 & H3 & H4).
  split; [exact H2 | split; [exact H3 | apply H4; vm_compute; reflexivity]].
Defined.

(** The boundary ages and incomes, on sample borrowers. *)
Lemma boundary_branches_run :
  age_factor (Sample.borrower 25 60000) 0 = 0 - 0.1 /\
  age_factor (Sample.borrower 45 60000) 0 = 0 - 0.1 /\
  income_factor (Sample.borrower 35 50000) 0 = 0 /\
  income_factor (Sample.borrower 35 25000) 0 = 0 /\
  raw_score (Sample.borrower 25 50000) Sample.alt 0 =
    0.15 + (credit_history (Sample.borrower 25 50000)
              (alternative_data_factors Sample.alt
                 (employment_stability (Sample.borrower 25 50000) (0 - 0.1)))
            + 0).
Proof.
  destruct boundary_branches as (Ha & Hi & Hr).
  split; [apply Ha; left; reflexivity|].
  split; [apply Ha; right; reflexivity|].
  split; [apply Hi; left; reflexivity|].
  split; [apply Hi; right; reflexivity|].
  apply Hr; left; reflexivity.
Defined.

(** C8, as stated, fails: on the stand-in generator the call leaves the
    generator in another state than it found it. *)
Lemma heuristic_advances_generator :
  rng (snd (@calculate_default_probability Lcg.random
              (Sample.borrower 35 60000) Sample.alt (Lcg.world 42)))
  <> rng (Lcg.world 42).
Proof. vm_compute. discriminate. Qed.

(** ** Computations that always return *)

Section Generates.

Context {R : RandomState}.

Lemma generates_ret {A} (a : A) (P : A -> Prop) :
  P a -> generates (ret a) P.
Proof. intros H w. exists a, w. auto. Qed.

Lemma generates_bind {A B} (m : M A) (k : A -> M B) P Q :
  generates m P ->
  (forall a, P a -> generates (k a) Q) ->
  generates (bind m k) Q.
Proof.
  intros Hm Hk w. destruct (Hm w) as (a & w1 & E1 & F1 & Pa).
  destruct (Hk a Pa w1) as (b & w2 & E2 & F2 & Qb).
  exists b, w2. unfold bind. rewrite E1. split; [exact E2|].
  split; [congruence | exact Qb].
Qed.

Lemma generates_mono {A} (m : M A) (P Q : A -> Prop) :
  generates m P -> (forall a, P a -> Q a) -> generates m Q.
Proof.
  intros Hm HPQ w. destruct (Hm w) as (a & w1 & E & F & Pa).
  exists a, w1. auto.
Qed.

Lemma generates_draw {A} (f : rng_state -> A * rng_state) :
  generates (draw f) (drawn f).
Proof.
  intros w. unfold draw. destruct (f (rng w)) as [a s] eqn:E.
  eexists _, _. split; [reflexivity|]. split; [reflexivity|].
  exists (rng w). by rewrite E.
Qed.

Lemma generates_draws {A} (n : nat) (f : rng_state -> A * rng_state) :
  generates (draws n f) (fun l => length l = n /\ Forall (drawn f) l).
Proof.
  induction n as [|n IH]; simpl.
  - apply generates_ret. split; [reflexivity | constructor].
  - eapply generates_bind; [apply generates_draw|]. intros x Hx.
    eapply generates_bind; [apply IH|]. intros xs [Hlen Hxs].
    apply generates_ret. simpl. split; [congruence | by constructor].
Qed.

Lemma generates_choice {A} `{Inhabited A} (a : list A) (n : nat) (p : list Q) :
  generates (choice a n p) (fun l => length l = n).
Proof.
  unfold choice. eapply generates_bind; [apply generates_draws|].
  intros idx [Hlen _]. apply generates_ret. by rewrite length_map.
Qed.

Lemma generates_seed (k : Z) : generates (seed k) (fun _ => True).
Proof. intros w. eexists _, _. unfold seed. split; [reflexivity|]. auto. Qed.

Lemma generates_now (wall_clock : nat -> Py.datetime) :
  generates (datetime_now wall_clock) (fun _ => True).
Proof.
  intros w. eexists _, _. unfold datetime_now. split; [reflexivity|]. auto.
Qed.

Lemma generates_index {A} (o : option A) (x : A) :
  o = Some x -> generates (index o) (fun y => y = x).
Proof. intros ->. simpl. by apply generates_ret. Qed.

Lemma generates_for_each {A B} (f : A -> M B) (P : A -> B -> Prop) (l : list A) :
  (forall x, In x l -> generates (f x) (P x)) ->
  generates (for_each f l) (Forall2 P l).
Proof.
  induction l as [|x l IH]; intros Hf; simpl.
  - apply generates_ret. constructor.
  - eapply generates_bind; [apply Hf; by left|]. intros y Hy.
    eapply generates_bind; [apply IH; intros; apply Hf; by right|].
    intros ys Hys. apply generates_ret. by constructor.
Qed.

Lemma generates_calculate row alt_row :
  generates (calculate_default_probability row alt_row)
    (fun p => exists noise,
         drawn (np_normal 0 0.1) noise /\
         p = bounded_probability row alt_row noise).
Proof.
  intros w. rewrite calculate_default_probability_run.
  eexists _, _. split; [reflexivity|]. split; [reflexivity|].
  eexists. split; [by exists (rng w) | reflexivity].
Qed.

End Generates.

(** ** Rows of a table *)

Ltac lookup_column Hi :=
  match goal with
  | |- context [@lookup nat ?A (list ?A) _ ?i ?col] =>
      let x := fresh "x" in
      let Hx := fresh "Hx" in
      destruct (lookup_lt_is_Some_2 col i) as [x Hx];
      [rewrite ?length_map; lia | rewrite Hx; simpl]
  end.

Lemma borrower_iloc_Some n d i :
  borrower_shape n d -> (i < n)%nat -> is_Some (borrower_iloc d i).
Proof.
  intros (H1 & H2 & H3 & H4 & H5 & H6 & H7 & H8 & H9) Hi.
  unfold borrower_iloc. repeat lookup_column Hi. eauto.
Qed.

Lemma alt_iloc_Some n d i :
  alt_shape n d -> (i < n)%nat -> is_Some (alt_iloc d i).
Proof.
  intros (H1 & H2 & H3 & H4 & H5 & H6 & H7 & H8 & H9 & H10) Hi.
  unfold alt_iloc. repeat lookup_column Hi. eauto.
Qed.

Lemma loan_iloc_Some n d i :
  loan_shape n d -> (i < n)%nat -> is_Some (loan_iloc d i).
Proof.
  intros (H1 & H2 & H3 & H4 & H5 & H6 & H7 & H8 & H9 & H10) Hi.
  unfold loan_iloc. repeat lookup_column Hi. eauto.
Qed.

Ltac invert_iloc H :=
  repeat
    match type of H with
    | context [@lookup nat ?A (list ?A) _ ?i ?col] =>
        let E := fresh "E" in
        destruct (col !! i) eqn:E; simpl in H; [|discriminate H]
    end;
  injection H as <-; simpl.

Lemma borrower_iloc_inv d i row :
  borrower_iloc d i = Some row ->
  BorrowerData.borrower_id d !! i = Some (Borrower.borrower_id row) /\
  BorrowerData.age d !! i = Some (Borrower.age row) /\
  BorrowerData.income d !! i = Some (Borrower.income row) /\
  BorrowerData.credit_history_months d !! i
    = Some (Borrower.credit_history_months row) /\
  BorrowerData.bank_account_age_months d !! i
    = Some (Borrower.bank_account_age_months row).
Proof. unfold borrower_iloc. intros H. invert_iloc H. auto. Qed.

Lemma alt_iloc_inv d i row :
  alt_iloc d i = Some row ->
  AltData.borrower_id d !! i = Some (Alt.borrower_id row) /\
  AltData.upi_transactions_monthly d !! i
    = Some (Alt.upi_transactions_monthly row) /\
  AltData.utility_bill_payment_consistency d !! i
    = Some (Alt.utility_bill_payment_consistency row) /\
  AltData.gst_returns_filed d !! i = Some (Alt.gst_returns_filed row) /\
  AltData.mobile_recharge_frequency d !! i
    = Some (Alt.mobile_recharge_frequency row) /\
  AltData.ecommerce_transactions_monthly d !! i
    = Some (Alt.ecommerce_transactions_monthly row) /\
  AltData.digital_wallet_balance_avg d !! i
    = Some (Alt.digital_wallet_balance_avg row) /\
  AltData.social_media_financial_mentions d !! i
    = Some (Alt.social_media_financial_mentions row) /\
  AltData.app_usage_financial_minutes_daily d !! i
    = Some (Alt.app_usage_financial_minutes_daily row) /\
  AltData.location_stability_score d !! i
    = Some (Alt.location_stability_score row).
Proof. unfold alt_iloc. intros H. invert_iloc H. auto 12. Qed.

Lemma loan_iloc_inv d i row :
  loan_iloc d i = Some row ->
  LoanData.borrower_id d !! i = Some (Loan.borrower_id row) /\
  LoanData.loan_amount d !! i = Some (Loan.loan_amount row) /\
  LoanData.interest_rate d !! i = Some (Loan.interest_rate row) /\
  LoanData.default_probability d !! i = Some (Loan.default_probability row) /\
  LoanData.is_default d !! i = Some (Loan.is_default row) /\
  LoanData.credit_score_traditional d !! i
    = Some (Loan.credit_score_traditional row).
Proof. unfold loan_iloc. intros H. invert_iloc H. auto 10. Qed.

(** ** The generated tables *)

Lemma borrower_ids_length n : length (borrower_ids n) = n.
Proof. unfold borrower_ids. by rewrite length_map, length_seq. Qed.

Lemma loan_ids_length n : length (loan_ids n) = n.
Proof. unfold loan_ids. by rewrite length_map, length_seq. Qed.

Section Tables.

Context {R : RandomState}.
Variable wall_clock : nat -> Py.datetime.

Lemma Forall_truncated (f : rng_state -> Q * rng_state) (l : list Q) :
  Forall (drawn f) l -> Forall (truncated f) (map Np.astype_int l).
Proof.
  induction 1 as [|x l Hx _ IH]; simpl; constructor; [|exact IH].
  exists x. auto.
Qed.

Ltac bind_with lem :=
  eapply generates_bind; [apply lem|]; cbv beta.

Lemma make_borrower_data_spec n :
  generates (make_borrower_data n)
    (fun d => BorrowerData.borrower_id d = borrower_ids n /\ borrower_shape n d).
Proof.
  unfold make_borrower_data.
  bind_with @generates_draws. intros age [Lage _].
  bind_with @generates_draws. intros income [Lincome _].
  bind_with @generates_choice. intros employment Lemp.
  bind_with @generates_choice. intros tier Ltier.
  bind_with @generates_choice. intros education Ledu.
  bind_with @generates_draws. intros loans [Lloans _].
  bind_with @generates_draws. intros history [Lhistory _].
  bind_with @generates_draws. intros account [Laccount _].
  apply generates_ret. split; [reflexivity|].
  unfold borrower_shape. simpl.
  rewrite !length_map, borrower_ids_length. tauto.
Qed.

Lemma clip_borrower_data_ok n d :
  BorrowerData.borrower_id d = borrower_ids n ->
  borrower_shape n d ->
  borrower_ok n (clip_borrower_data d).
Proof.
  intros Hid (H1 & H2 & H3 & H4 & H5 & H6 & H7 & H8 & H9).
  unfold borrower_ok, borrower_shape, clip_borrower_data. simpl.
  unfold Np.clip at 1 2 3 4. rewrite !length_map.
  repeat split; try assumption; apply clip_range; lia.
Qed.

Lemma BorrowerDataFrame_spec n d :
  borrower_shape n d -> generates (BorrowerDataFrame d) (fun df => df = d).
Proof.
  intros (H1 & H2 & H3 & H4 & H5 & H6 & H7 & H8 & H9).
  unfold BorrowerDataFrame, same_length.
  rewrite H1, H2, H3, H4, H5, H6, H7, H8, H9. simpl.
  rewrite Nat.eqb_refl. simpl. by apply generates_ret.
Qed.

Lemma AltDataFrame_spec n d :
  alt_shape n d -> generates (AltDataFrame d) (fun df => df = d).
Proof.
  intros (H1 & H2 & H3 & H4 & H5 & H6 & H7 & H8 & H9 & H10).
  unfold AltDataFrame, same_length.
  rewrite H1, H2, H3, H4, H5, H6, H7, H8, H9, H10. simpl.
  rewrite Nat.eqb_refl. simpl. by apply generates_ret.
Qed.

Lemma LoanDataFrame_spec n d :
  loan_shape n d -> generates (LoanDataFrame d) (fun df => df = d).
Proof.
  intros (H1 & H2 & H3 & H4 & H5 & H6 & H7 & H8 & H9 & H10).
  unfold LoanDataFrame, same_length.
  rewrite H1, H2, H3, H4, H5, H6, H7, H8, H9, H10. simpl.
  rewrite Nat.eqb_refl. simpl. by apply generates_ret.
Qed.

Lemma make_alt_data_spec n borrower_df :
  BorrowerData.borrower_id borrower_df = borrower_ids n ->
  generates (make_alt_data n borrower_df) (alt_ok n).
Proof.
  intros Hid. unfold make_alt_data.
  bind_with @generates_draws. intros upi [L1 D1].
  bind_with @generates_draws. intros utility [L2 D2].
  bind_with @generates_draws. intros gst [L3 D3].
  bind_with @generates_draws. intros recharge [L4 D4].
  bind_with @generates_draws. intros ecommerce [L5 D5].
  bind_with @generates_draws. intros wallet [L6 D6].
  bind_with @generates_draws. intros mentions [L7 D7].
  bind_with @generates_draws. intros app_usage [L8 D8].
  bind_with @generates_draws. intros location [L9 D9].
  apply generates_ret.
  unfold alt_ok, alt_shape. simpl.
  rewrite !length_map, Hid, borrower_ids_length.
  repeat split; try assumption; by apply Forall_truncated.
Qed.

Lemma default_probs_loop_spec n borrower_df alt_data_df :
  borrower_shape n borrower_df ->
  alt_shape n alt_data_df ->
  generates (default_probs_loop n borrower_df alt_data_df)
    (Forall2 (scored borrower_df alt_data_df) (seq 0 n)).
Proof.
  intros Hb Ha. unfold default_probs_loop.
  apply generates_for_each. intros i Hi.
  apply in_seq in Hi.
  destruct (borrower_iloc_Some n borrower_df i Hb) as [row Hrow]; [lia|].
  destruct (alt_iloc_Some n alt_data_df i Ha) as [alt_row Halt]; [lia|].
  eapply generates_bind; [by apply generates_index|]. intros ? ->.
  eapply generates_bind; [by apply generates_index|]. intros ? ->.
  eapply generates_mono; [apply generates_calculate|].
  intros p (noise & Hn & ->). exists row, alt_row, noise. auto.
Qed.

Lemma sample_outcomes_spec default_probs :
  generates (sample_outcomes default_probs) (Forall2 sampled default_probs).
Proof.
  unfold sample_outcomes. apply generates_for_each. intros prob _.
  eapply generates_bind; [apply generates_draw|]. intros u Hu.
  apply generates_ret. exists u. auto.
Qed.

Lemma application_dates_spec n :
  generates (application_dates wall_clock n) (fun l => length l = n).
Proof.
  unfold application_dates.
  eapply generates_mono.
  - apply (generates_for_each _ (fun _ _ => True)). intros i _.
    eapply generates_bind; [apply generates_now|]. intros now _.
    eapply generates_bind; [apply generates_draw|]. intros days _.
    by apply generates_ret.
  - intros l Hl. apply Forall2_length in Hl.
    by rewrite length_seq in Hl.
Qed.

Lemma make_loan_data_spec n borrower_df default_probs :
  BorrowerData.borrower_id borrower_df = borrower_ids n ->
  length default_probs = n ->
  generates (make_loan_data wall_clock n borrower_df default_probs)
    (fun d =>
       LoanData.borrower_id d = borrower_ids n /\
       loan_shape n d /\
       LoanData.default_probability d = default_probs /\
       Forall2 sampled default_probs (LoanData.is_default d)).
Proof.
  intros Hid Hprobs. unfold make_loan_data.
  bind_with @generates_draws. intros amount [L1 _].
  bind_with @generates_choice. intros tenure L2.
  bind_with @generates_draws. intros interest [L3 _].
  bind_with @generates_choice. intros purpose L4.
  bind_with application_dates_spec. intros dates L5.
  bind_with sample_outcomes_spec. intros outcomes Hout.
  bind_with @generates_draws. intros score [L6 _].
  apply generates_ret. simpl.
  split; [exact Hid|]. split; [|split; [reflexivity | exact Hout]].
  unfold loan_shape. simpl.
  rewrite !length_map, loan_ids_length, Hid, borrower_ids_length.
  apply Forall2_length in Hout. repeat split; congruence.
Qed.

Lemma clip_loan_data_ok n d :
  LoanData.borrower_id d = borrower_ids n ->
  loan_shape n d ->
  Forall2 sampled (LoanData.default_probability d) (LoanData.is_default d) ->
  loan_ok n (clip_loan_data d).
Proof.
  intros Hid (H1 & H2 & H3 & H4 & H5 & H6 & H7 & H8 & H9 & H10) Hs.
  unfold loan_ok, loan_shape, clip_loan_data. simpl.
  unfold Np.clip at 1 2, Np.clip_float at 1. rewrite !length_map.
  repeat split; try assumption;
    try (apply clip_range; lia); apply clip_float_range; lra.
Qed.

(** The three tables are always produced, and are as [tables_ok] says. *)
Lemma generate_spec seed_value n :
  generates (generate wall_clock seed_value n) (tables_ok n).
Proof.
  unfold generate.
  bind_with generates_seed. intros _ _.
  bind_with make_borrower_data_spec. intros d [Hid Hshape].
  pose proof (clip_borrower_data_ok n d Hid Hshape) as Hb.
  pose proof Hb as (Hbid & Hbshape & _).
  eapply generates_bind; [by apply (BorrowerDataFrame_spec n)|].
  intros borrower_df ->.
  eapply generates_bind; [by apply make_alt_data_spec|].
  intros alt_data Ha.
  pose proof Ha as (_ & Hashape & _).
  eapply generates_bind; [by apply (AltDataFrame_spec n)|].
  intros alt_data_df ->.
  eapply generates_bind; [by apply (default_probs_loop_spec n)|].
  intros default_probs Hprobs.
  pose proof (Forall2_length _ _ _ Hprobs) as Hlen.
  rewrite length_seq in Hlen.
  eapply generates_bind; [by apply make_loan_data_spec|].
  intros loan_data (Hlid & Hlshape & Hdp & Hout).
  assert (Hl : loan_ok n (clip_loan_data loan_data)).
  { apply clip_loan_data_ok; [assumption | assumption | by rewrite Hdp]. }
  pose proof Hl as (_ & Hlshape' & _).
  eapply generates_bind; [by apply (LoanDataFrame_spec n)|].
  intros loan_df ->.
  apply generates_ret. unfold tables_ok.
  split; [exact Hb|]. split; [exact Ha|]. split; [exact Hl|].
  simpl. by rewrite Hdp.
Qed.

End Tables.

(** ** Identifiers *)

Lemma numeral_value_str i : numeral_value (Py.str i) = Some i.
Proof.
  unfold numeral_value, Py.str. rewrite NilEmpty.usu. simpl.
  by rewrite Unsigned.of_to.
Qed.

Lemma numeral_value_zero s :
  numeral_value (String "0" s) = numeral_value s.
Proof.
  unfold numeral_value. simpl.
  destruct (NilEmpty.uint_of_string s); reflexivity.
Qed.

Lemma numeral_value_zeros k s :
  numeral_value (Py.zeros k ++ s) = numeral_value s.
Proof.
  induction k as [|k IH]; [reflexivity|].
  change (numeral_value (String "0" (Py.zeros k ++ s)) = numeral_value s).
  by rewrite numeral_value_zero.
Qed.

Lemma numeral_value_only_zeros k : numeral_value (Py.zeros k) = Some 0%nat.
Proof.
  induction k as [|k IH]; [reflexivity|].
  change (numeral_value (String "0" (Py.zeros k)) = Some 0%nat).
  by rewrite numeral_value_zero.
Qed.

Lemma numeral_not_signed c rest n :
  numeral_value (String c rest) = Some n -> Py.is_sign c = false.
Proof.
  unfold numeral_value, Py.is_sign. simpl. intros H.
  destruct (Ascii.eqb_spec c "+") as [->|_];
    [destruct (NilEmpty.uint_of_string rest); discriminate H|].
  destruct (Ascii.eqb_spec c "-") as [->|_];
    [destruct (NilEmpty.uint_of_string rest); discriminate H|].
  reflexivity.
Qed.

Lemma numeral_value_zfill width i :
  numeral_value (Py.zfill width (Py.str i)) = Some i.
Proof.
  pose proof (numeral_value_str i) as Hv.
  unfold Py.zfill. destruct (Py.str i) as [|c rest] eqn:E.
  - rewrite numeral_value_only_zeros. exact Hv.
  - rewrite (numeral_not_signed _ _ _ Hv).
    by rewrite numeral_value_zeros.
Qed.

Lemma NoDup_borrower_ids n : NoDup (borrower_ids n).
Proof.
  unfold borrower_ids. apply NoDup_fmap_2; [|apply NoDup_seq].
  intros i j Hij. cbn [String.append] in Hij. injection Hij as Hij.
  apply (f_equal numeral_value) in Hij.
  change (numeral_value (Py.zfill 6 (Py.str i))
          = numeral_value (Py.zfill 6 (Py.str j))) in Hij.
  rewrite !numeral_value_zfill in Hij. congruence.
Qed.

(** A boolean filter that accepts exactly the positions of [x] in a list
    without duplicates accepts exactly one position. *)
Lemma filter_unique_position {A} (l : list A) (x : A) (f : nat -> bool) (i : nat) :
  NoDup l ->
  l !! i = Some x ->
  (forall j, f j = true <-> l !! j = Some x) ->
  List.filter f (seq 0 (length l)) = [i].
Proof.
  intros Hnd Hi Hf.
  assert (Hin : forall j, In j (List.filter f (seq 0 (length l))) <-> j = i).
  { intros j. rewrite filter_In, in_seq, Hf. split.
    - intros [_ Hj]. by apply (NoDup_lookup l j i x).
    - intros ->. split; [|exact Hi].
      apply lookup_lt_Some in Hi. lia. }
  assert (Hnd' : NoDup (List.filter f (seq 0 (length l))))
    by (apply NoDup_ListNoDup, List.NoDup_filter, NoDup_ListNoDup, NoDup_seq).
  destruct (List.filter f (seq 0 (length l))) as [|a [|b t]].
  - exfalso. apply (Hin i). reflexivity.
  - f_equal. apply Hin. by left.
  - exfalso. inversion Hnd' as [|? ? Hnot _]; subst.
    assert (a = i) by (apply Hin; by left).
    assert (b = i) by (apply Hin; right; by left).
    apply Hnot. subst. constructor.
Qed.

Lemma borrower_matches_position n d i id :
  borrower_ok n d ->
  BorrowerData.borrower_id d !! i = Some id ->
  borrower_matches d id = [i].
Proof.
  intros (Hid & Hshape & _) Hi. unfold borrower_matches.
  apply (filter_unique_position _ id); [rewrite Hid; apply NoDup_borrower_ids | exact Hi |].
  intros j. split.
  - destruct (borrower_iloc d j) as [r|] eqn:E; [|discriminate].
    intros Heq. apply String.eqb_eq in Heq. subst id.
    by apply borrower_iloc_inv in E as (? & _).
  - intros Hj.
    destruct (borrower_iloc_Some n d j Hshape) as [r Hr].
    { apply lookup_lt_Some in Hj. destruct Hshape as (Hl & _). lia. }
    rewrite Hr. apply borrower_iloc_inv in Hr as (Hr & _).
    apply String.eqb_eq. congruence.
Qed.

Lemma alt_matches_position {R : RandomState} n d i id :
  alt_ok n d ->
  AltData.borrower_id d !! i = Some id ->
  alt_matches d id = [i].
Proof.
  intros (Hid & Hshape & _) Hi. unfold alt_matches.
  apply (filter_unique_position _ id); [rewrite Hid; apply NoDup_borrower_ids | exact Hi |].
  intros j. split.
  - destruct (alt_iloc d j) as [r|] eqn:E; [|discriminate].
    intros Heq. apply String.eqb_eq in Heq. subst id.
    by apply alt_iloc_inv in E as (? & _).
  - intros Hj.
    destruct (alt_iloc_Some n d j Hshape) as [r Hr].
    { apply lookup_lt_Some in Hj. destruct Hshape as (Hl & _). lia. }
    rewrite Hr. apply alt_iloc_inv in Hr as (Hr & _).
    apply String.eqb_eq. congruence.
Qed.

(** ** The stand-in generator respects the supports *)

Lemma unit_of_range s : 0 <= Lcg.unit_of s /\ Lcg.unit_of s < 1.
Proof.
  unfold Lcg.unit_of, Lcg.modulus, Qle, Qlt. simpl.
  pose proof (Z.mod_pos_bound s 2147483648). lia.
Qed.

Lemma Lcg_support : RandomSupport Lcg.random.
Proof.
  split; simpl.
  - intros m sg s _. pose proof (unit_of_range (Lcg.next s)). lra.
  - intros sc s Hsc. pose proof (unit_of_range (Lcg.next s)). nra.
  - intros a b s _ _. pose proof (unit_of_range (Lcg.next s)). lra.
  - intros lam s _. apply Z.mod_pos_bound. lia.
  - intros k p s Hk _ _.
    pose proof (Z.mod_pos_bound (Lcg.high (Lcg.next s)) (k + 1)). lia.
  - intros p s Hp. destruct p as [|q p]; [congruence|].
    pose proof (Z.mod_pos_bound (Lcg.high (Lcg.next s))
                  (Z.of_nat (length (q :: p)))) as Hm.
    simpl length in *. lia.
  - intros lo hi s Hlh.
    pose proof (Z.mod_pos_bound (Lcg.high (Lcg.next s)) (hi - lo)). lia.
  - intros s. apply unit_of_range.
Qed.

(** ** Post-conditions of a run *)

Section Run.

Context {R : RandomState}.
Variable wall_clock : nat -> Py.datetime.

(** C6.  Whatever the seed, the record count and the world the run starts
    from, the three tables are produced with one row per borrower, every
    borrower row has age in [18,70], income in [15000,2000000], credit
    history in [0,120] and bank account age in [3,240], and every loan
    row has loan amount in [10000,1000000], interest rate in [8,25],
    traditional credit score in [300,850] and default probability in
    [0.02,0.95]. *)
Theorem clamped_fields_in_range (seed_value : Z) (n : nat) (w0 : World) :
  exists borrower_df alt_data_df loan_df w,
    generate wall_clock seed_value n w0
      = (Ok (borrower_df, alt_data_df, loan_df), w) /\
    (forall i, (i < n)%nat ->
       is_Some (borrower_iloc borrower_df i) /\
       is_Some (loan_iloc loan_df i)) /\
    (forall i row, borrower_iloc borrower_df i = Some row ->
       (18 <= Borrower.age row <= 70)%Z /\
       (15000 <= Borrower.income row <= 2000000)%Z /\
       (0 <= Borrower.credit_history_months row <= 120)%Z /\
       (3 <= Borrower.bank_account_age_months row <= 240)%Z) /\
    (forall i row, loan_iloc loan_df i = Some row ->
       (10000 <= Loan.loan_amount row <= 1000000)%Z /\
       (8 <= Loan.interest_rate row /\ Loan.interest_rate row <= 25) /\
       (300 <= Loan.credit_score_traditional row <= 850)%Z /\
       (0.02 <= Loan.default_probability row /\
        Loan.default_probability row <= 0.95)).
Proof.
  destruct (generate_spec wall_clock seed_value n w0)
    as ([[borrower_df alt_data_df] loan_df] & w & E & _ & Hb & Ha & Hl & Hp).
  exists borrower_df, alt_data_df, loan_df, w. split; [exact E|].
  destruct Hb as (_ & Hbshape & Hage & Hinc & Hch & Hba).
  destruct Hl as (_ & Hlshape & Hamt & Hint & Hcs & _).
  split; [|split].
  - intros i Hi. split;
      [by apply (borrower_iloc_Some n) | by apply (loan_iloc_Some n)].
  - intros i row Hrow.
    apply borrower_iloc_inv in Hrow as (_ & H2 & H3 & H4 & H5).
    split; [exact (Forall_lookup_1 _ _ _ _ Hage H2)|].
    split; [exact (Forall_lookup_1 _ _ _ _ Hinc H3)|].
    split; [exact (Forall_lookup_1 _ _ _ _ Hch H4)|].
    exact (Forall_lookup_1 _ _ _ _ Hba H5).
  - intros i row Hrow.
    apply loan_iloc_inv in Hrow as (_ & H2 & H3 & H4 & _ & H6).
    split; [exact (Forall_lookup_1 _ _ _ _ Hamt H2)|].
    split; [exact (Forall_lookup_1 _ _ _ _ Hint H3)|].
    split; [exact (Forall_lookup_1 _ _ _ _ Hcs H6)|].
    destruct (Forall2_lookup_r _ _ _ _ _ Hp H4)
      as (j & _ & (brow & arow & noise & _ & _ & _ & ->)).
    apply bounded_probability_range.
Qed.

(** C9.  Whatever the seed and the record count, the borrower identifier
    of the loan row at position [i] is carried by exactly one row of the
    borrower table and by exactly one row of the alternative-data table,
    the rows at position [i]. *)
Theorem referential_integrity (seed_value : Z) (n : nat) (w0 : World) :
  exists borrower_df alt_data_df loan_df w,
    generate wall_clock seed_value n w0
      = (Ok (borrower_df, alt_data_df, loan_df), w) /\
    (forall i, (i < n)%nat -> is_Some (loan_iloc loan_df i)) /\
    (forall i row, loan_iloc loan_df i = Some row ->
       borrower_matches borrower_df (Loan.borrower_id row) = [i] /\
       alt_matches alt_data_df (Loan.borrower_id row) = [i]).
Proof.
  destruct (generate_spec wall_clock seed_value n w0)
    as ([[borrower_df alt_data_df] loan_df] & w & E & _ & Hb & Ha & Hl & Hp).
  exists borrower_df, alt_data_df, loan_df, w. split; [exact E|].
  pose proof Hb as (Hbid & _). pose proof Ha as (Haid & _).
  destruct Hl as (Hlid & Hlshape & _).
  split.
  - intros i Hi. by apply (loan_iloc_Some n).
  - intros i row Hrow. apply loan_iloc_inv in Hrow as (H1 & _).
    rewrite Hlid in H1. split.
    + apply (borrower_matches_position n); [exact Hb | by rewrite Hbid].
    + apply (alt_matches_position n); [exact Ha | by rewrite Haid].
Qed.

(** C10.  With samplers that stay in the supports of their distributions,
    every alternative-data row has utility payment consistency and
    location stability score in [0,1], GST returns filed in [0,12], and
    non-negative UPI, mobile-recharge, e-commerce, wallet-balance,
    social-media and app-usage fields, although none of these columns is
    clipped. *)
Theorem alt_fields_in_support (seed_value : Z) (n : nat) (w0 : World) :
  RandomSupport R ->
  exists borrower_df alt_data_df loan_df w,
    generate wall_clock seed_value n w0
      = (Ok (borrower_df, alt_data_df, loan_df), w) /\
    (forall i, (i < n)%nat -> is_Some (alt_iloc alt_data_df i)) /\
    (forall i row, alt_iloc alt_data_df i = Some row ->
       (0 <= Alt.utility_bill_payment_consistency row /\
        Alt.utility_bill_payment_consistency row <= 1) /\
       (0 <= Alt.location_stability_score row /\
        Alt.location_stability_score row <= 1) /\
       (0 <= Alt.gst_returns_filed row <= 12)%Z /\
       (0 <= Alt.upi_transactions_monthly row)%Z /\
       (0 <= Alt.mobile_recharge_frequency row)%Z /\
       (0 <= Alt.ecommerce_transactions_monthly row)%Z /\
       (0 <= Alt.digital_wallet_balance_avg row)%Z /\
       (0 <= Alt.social_media_financial_mentions row)%Z /\
       (0 <= Alt.app_usage_financial_minutes_daily row)%Z).
Proof.
  intros HS.
  destruct (generate_spec wall_clock seed_value n w0)
    as ([[borrower_df alt_data_df] loan_df] & w & E & _ & Hb & Ha & Hl & Hp).
  exists borrower_df, alt_data_df, loan_df, w. split; [exact E|].
  destruct Ha as (_ & Hshape & Hupi & Hut & Hgst & Hrc & Hec & Hwl & Hsm & Happ & Hloc).
  split; [intros i Hi; by apply (alt_iloc_Some n)|].
  intros i row Hrow.
  apply alt_iloc_inv in Hrow
    as (_ & H2 & H3 & H4 & H5 & H6 & H7 & H8 & H9 & H10).
  destruct (Forall_lookup_1 _ _ _ _ Hupi H2) as [s2 ->].
  destruct (Forall_lookup_1 _ _ _ _ Hut H3) as [s3 ->].
  destruct (Forall_lookup_1 _ _ _ _ Hgst H4) as [s4 ->].
  destruct (Forall_lookup_1 _ _ _ _ Hrc H5) as [s5 ->].
  destruct (Forall_lookup_1 _ _ _ _ Hec H6) as [s6 ->].
  destruct (Forall_lookup_1 _ _ _ _ Hwl H7) as (x7 & [s7 ->] & ->).
  destruct (Forall_lookup_1 _ _ _ _ Hsm H8) as [s8 ->].
  destruct (Forall_lookup_1 _ _ _ _ Happ H9) as (x9 & [s9 ->] & ->).
  destruct (Forall_lookup_1 _ _ _ _ Hloc H10) as [s10 ->].
  split; [apply beta_unit; lra|].
  split; [apply beta_unit; lra|].
  split; [apply binomial_range; [lia | lra | lra]|].
  split; [apply poisson_nonneg; lra|].
  split; [apply poisson_nonneg; lra|].
  split; [apply poisson_nonneg; lra|].
  split; [apply astype_int_nonneg, Qlt_le_weak, lognormal_pos; lra|].
  split; [apply poisson_nonneg; lra|].
  apply astype_int_nonneg, exponential_nonneg; lra.
Qed.

End Run.

(** ** Sequencing *)

Section Sequencing.

Context {R : RandomState}.

Lemma bind_assoc {A B C} (m : M A) (k : A -> M B) (h : B -> M C) (w : World) :
  bind (bind m k) h w = bind m (fun a => bind (k a) h) w.
Proof.
  unfold bind. destruct (m w) as [[a|e] w1]; reflexivity.
Qed.

Lemma bind_ret_l {A B} (a : A) (k : A -> M B) (w : World) :
  bind (ret a) k w = k a w.
Proof. reflexivity. Qed.

Lemma bind_ext {A B} (m : M A) (k k' : A -> M B) (w : World) :
  (forall a w', k a w' = k' a w') -> bind m k w = bind m k' w.
Proof.
  intros H. unfold bind. destruct (m w) as [[a|e] w1]; [apply H | reflexivity].
Qed.

Lemma bind_cong_l {A B} (m m' : M A) (k : A -> M B) (w : World) :
  (forall w', m w' = m' w') -> bind m k w = bind m' k w.
Proof. intros H. unfold bind. by rewrite H. Qed.

Lemma bind_Ok_inv {A B} (m : M A) (k : A -> M B) (w w' : World) (b : B) :
  bind m k w = (Ok b, w') ->
  exists a w1, m w = (Ok a, w1) /\ k a w1 = (Ok b, w').
Proof.
  unfold bind. destruct (m w) as [[a|e] w1]; [eauto | discriminate].
Qed.

Lemma bind_draw {A B} (f : rng_state -> A * rng_state) (k : A -> M B)
    (w : World) :
  bind (draw f) k w
  = k (fst (f (rng w)))
      {| rng := snd (f (rng w)); clock_reads := clock_reads w; fs := fs w |}.
Proof. unfold bind, draw. destruct (f (rng w)); reflexivity. Qed.

Lemma fst_bind_ret {A B} (m : M A) (g : A -> B) (w : World) :
  fst (bind m (fun a => ret (g a)) w)
  = match fst (m w) with Ok a => Ok (g a) | Raise e => Raise e end.
Proof. unfold bind. destruct (m w) as [[a|e] w1]; reflexivity. Qed.

End Sequencing.

Ltac bind_norm := repeat (rewrite bind_assoc || rewrite bind_ret_l).
Ltac bind_step :=
  bind_norm; cbv beta iota zeta;
  first [reflexivity | apply bind_ext; intros ? ?].

Section Split.

Context {R : RandomState}.
Variable wall_clock : nat -> Py.datetime.

(** Steps 1 to 3 are the part before the outcomes followed by the rest. *)
Lemma generate_split seed_value n (w : World) :
  generate wall_clock seed_value n w
  = bind (before_outcomes wall_clock seed_value n) (after_outcomes n) w.
Proof.
  unfold generate, before_outcomes, make_loan_data, after_outcomes.
  repeat bind_step.
Qed.

Lemma uniforms_length n s : length (uniforms n s) = n.
Proof.
  revert s. induction n as [|n IH]; intros s; simpl; [reflexivity|].
  destruct (np_random s) as [u s']. simpl. by rewrite IH.
Qed.

(** The comprehension compares the i-th uniform draw with the i-th
    probability. *)
Lemma sample_outcomes_run default_probs (w : World) :
  fst (sample_outcomes default_probs w)
  = Ok (zip_with (fun u prob => Py.ltb u prob)
          (uniforms (length default_probs) (rng w)) default_probs).
Proof.
  unfold sample_outcomes. revert w.
  induction default_probs as [|prob probs IH]; intros w; [reflexivity|].
  cbn [for_each length uniforms].
  rewrite bind_assoc, bind_draw, bind_ret_l, fst_bind_ret, IH.
  cbn [rng]. by destruct (np_random (rng w)) as [u s'].
Qed.

End Split.

Section Outcomes.

Context {R : RandomState}.
Variable wall_clock : nat -> Py.datetime.

Lemma uniforms_drawn n s : Forall (drawn np_random) (uniforms n s).
Proof.
  revert s. induction n as [|n IH]; intros s; simpl; [constructor|].
  destruct (np_random s) as [u s'] eqn:E. constructor; [|apply IH].
  exists s. by rewrite E.
Qed.

(** The outcome column of a run is the comparison of the uniform draws,
    taken from the state the generator is in after the application dates,
    with the stored probability column. *)
Lemma generate_outcomes seed_value n (w0 w : World) b a l :
  generate wall_clock seed_value n w0 = (Ok (b, a, l), w) ->
  LoanData.is_default l
  = zip_with (fun u prob => Py.ltb u prob)
      (uniforms (length (LoanData.default_probability l))
         (rng (snd (before_outcomes wall_clock seed_value n w0))))
      (LoanData.default_probability l).
Proof.
  intros E. rewrite generate_split in E.
  apply bind_Ok_inv in E as (pre & ws & Eb & Ea). rewrite Eb. simpl snd.
  destruct pre as [[[b' a'] probs] [[[[amount tenure] interest] purpose] dates]].
  unfold after_outcomes in Ea.
  apply bind_Ok_inv in Ea as (outcomes & wt & Eo & Ea).
  apply bind_Ok_inv in Ea as (score & wu & _ & Ea).
  apply bind_Ok_inv in Ea as (loan_df & wv & Ef & Ea).
  unfold ret in Ea. injection Ea as _ _ <- _.
  unfold LoanDataFrame in Ef.
  destruct (same_length _ _) in Ef; [|discriminate Ef].
  unfold ret in Ef. injection Ef as <- _. simpl.
  pose proof (sample_outcomes_run probs ws) as Hrun.
  rewrite Eo in Hrun. simpl in Hrun. by injection Hrun as ->.
Qed.

(** C2.  In every run, for every borrower, the default probability
    stored in the loan row is the clamp to [0.02, 0.95] of the raw score,
    0.15 plus the accumulated adjustments plus the random factor: it is
    what [max(0.02, min(0.95, raw))] returns, which is 0.02 when the raw
    score is at most 0.02, 0.95 when it is at least 0.95, and the raw
    score itself in between; so it lies in [0.02, 0.95].  The stored
    outcome is the strict comparison of one uniform draw, the i-th of the
    draws made when the outcomes are sampled, with exactly that stored
    probability: the loan defaults exactly when the draw is strictly
    below it.  With samplers that stay in their supports that draw lies
    in [0, 1). *)
Theorem default_probability_stored_and_sampled
    (seed_value : Z) (n : nat) (w0 : World) :
  exists borrower_df alt_data_df loan_df w,
    generate wall_clock seed_value n w0
      = (Ok (borrower_df, alt_data_df, loan_df), w) /\
    let draws_made :=
      uniforms n (rng (snd (before_outcomes wall_clock seed_value n w0))) in
    forall i, (i < n)%nat ->
      exists row alt_row loan_row noise u,
        borrower_iloc borrower_df i = Some row /\
        alt_iloc alt_data_df i = Some alt_row /\
        loan_iloc loan_df i = Some loan_row /\
        drawn (np_normal 0 0.1) noise /\
        Loan.default_probability loan_row
          = Py.max 0.02
              (Py.min 0.95 (0.15 + (risk_before_noise row alt_row + noise))) /\
        0.02 <= Loan.default_probability loan_row /\
        Loan.default_probability loan_row <= 0.95 /\
        draws_made !! i = Some u /\
        (RandomSupport R -> 0 <= u /\ u < 1) /\
        Loan.is_default loan_row
          = Py.ltb u (Loan.default_probability loan_row) /\
        (0.15 + (risk_before_noise row alt_row + noise) <= 0.02 ->
         Loan.default_probability loan_row = 0.02) /\
        (0.95 <= 0.15 + (risk_before_noise row alt_row + noise) ->
         Loan.default_probability loan_row = 0.95) /\
        (0.02 <= 0.15 + (risk_before_noise row alt_row + noise) ->
         0.15 + (risk_before_noise row alt_row + noise) <= 0.95 ->
         Loan.default_probability loan_row
           == 0.15 + (risk_before_noise row alt_row + noise)) /\
        (Loan.is_default loan_row = true
           <-> u < Loan.default_probability loan_row).
Proof.
  destruct (generate_spec wall_clock seed_value n w0)
    as ([[borrower_df alt_data_df] loan_df] & w & E & _ & Hb & Ha & Hl & Hp).
  exists borrower_df, alt_data_df, loan_df, w. split; [exact E|].
  cbv zeta. intros i Hi.
  pose proof (generate_outcomes _ _ _ _ _ _ _ E) as Hout.
  destruct Hl as (_ & Hshape & _).
  pose proof Hshape as (_ & _ & _ & _ & _ & _ & _ & Hlen & _).
  rewrite Hlen in Hout.
  set (us := uniforms n _) in *.
  destruct (loan_iloc_Some n loan_df i Hshape Hi) as [loan_row Hrow].
  pose proof (loan_iloc_inv _ _ _ Hrow) as (_ & _ & _ & Hdp & Hisd & _).
  destruct (Forall2_lookup_r _ _ _ _ _ Hp Hdp)
    as (j & Hj & (row & alt_row & noise & Hbrow & Harow & Hnoise & Hval)).
  apply lookup_seq in Hj as [-> _]. simpl in Hbrow, Harow.
  destruct (lookup_lt_is_Some_2 us i) as [u Hu];
    [unfold us; rewrite uniforms_length; lia|].
  exists row, alt_row, loan_row, noise, u.
  split; [exact Hbrow|]. split; [exact Harow|]. split; [exact Hrow|].
  split; [exact Hnoise|]. split; [exact Hval|].
  split; [rewrite Hval; apply bounded_probability_range|].
  split; [rewrite Hval; apply bounded_probability_range|].
  split; [exact Hu|]. split.
  - intros HS.
    destruct (Forall_lookup_1 _ _ _ _ (uniforms_drawn _ _) Hu) as [s ->].
    apply random_unit.
  - assert (Hcmp : Loan.is_default loan_row
                     = Py.ltb u (Loan.default_probability loan_row)).
    { rewrite Hout, lookup_zip_with, Hu, Hdp in Hisd. simpl in Hisd.
      congruence. }
    split; [exact Hcmp|].
    destruct (clamp_cases (0.15 + (risk_before_noise row alt_row + noise)))
      as (Hlo & Hhi & Hmid).
    split; [intros H; rewrite Hval; exact (Hlo H)|].
    split; [intros H; rewrite Hval; exact (Hhi H)|].
    split; [intros H1 H2; rewrite Hval; exact (Hmid H1 H2)|].
    rewrite Hcmp. split.
    + intros H. destruct (Qlt_le_dec u (Loan.default_probability loan_row))
        as [Hlt|Hge]; [exact Hlt|].
      apply ltb_ge in Hge. rewrite Hge in H. discriminate.
    + apply ltb_lt.
Qed.

End Outcomes.

(** ** Dependence on the clock *)

Section Clock.

Context {R : RandomState}.
Variable wall_clock : nat -> Py.datetime.
Variable d : Z.

Lemma bind_now {B} (clock : nat -> Py.datetime) (k : Py.datetime -> M B)
    (w : World) :
  bind (datetime_now clock) k w
  = k (clock (clock_reads w))
      {| rng := rng w; clock_reads := S (clock_reads w); fs := fs w |}.
Proof. reflexivity. Qed.

Lemma application_dates_later n (w : World) :
  application_dates (later wall_clock d) n w
  = bind (application_dates wall_clock n)
      (fun l => ret (map (fun t => (t + d)%Z) l)) w.
Proof.
  unfold application_dates. generalize (seq 0 n). intros l. revert w.
  induction l as [|x l IH]; intros w; [reflexivity|].
  cbn [for_each]. rewrite !bind_assoc, !bind_now.
  rewrite !bind_assoc, !bind_draw, !bind_ret_l.
  rewrite (bind_cong_l _ _ _ _ IH). rewrite !bind_assoc.
  apply bind_ext. intros ys w'. rewrite !bind_ret_l.
  unfold ret, later. cbn [map]. do 3 f_equal. lia.
Qed.

Lemma LoanDataFrame_later {B} (x : LoanData.t) (k : LoanData.t -> M B)
    (w : World) :
  bind (LoanDataFrame (shift_dates d x)) k w
  = bind (LoanDataFrame x) (fun df => k (shift_dates d df)) w.
Proof.
  unfold LoanDataFrame, shift_dates. cbn [LoanData.loan_id
    LoanData.borrower_id LoanData.loan_amount LoanData.loan_tenure_months
    LoanData.interest_rate LoanData.loan_purpose LoanData.application_date
    LoanData.default_probability LoanData.is_default
    LoanData.credit_score_traditional].
  rewrite length_map. by destruct (same_length _ _).
Qed.

(** A run under the later clock is the run under the given clock with
    every application date moved by [d]. *)
Lemma generate_later seed_value n (w : World) :
  generate (later wall_clock d) seed_value n w
  = bind (generate wall_clock seed_value n)
      (fun t => ret (fst (fst t), snd (fst t), shift_dates d (snd t))) w.
Proof.
  unfold generate, make_loan_data.
  repeat bind_step. bind_norm.
  rewrite (bind_cong_l _ _ _ _ (application_dates_later n)).
  repeat bind_step. bind_norm.
  match goal with
  | |- bind (LoanDataFrame (clip_loan_data ?x)) _ _ = _ =>
      match x with
      | context C [map ?f ?dates] =>
          let y := context C [dates] in
          change (clip_loan_data x) with (shift_dates d (clip_loan_data y))
      end
  end.
  rewrite LoanDataFrame_later. repeat bind_step.
Qed.

End Clock.

Section Reproducibility.

Context {R : RandomState}.

(** C1, on the code.  Two runs with the same seed and the same record
    count from the same world, the second started [d] microseconds after
    the first, produce the same borrower table and the same
    alternative-data table, and loan tables that agree in every column but
    the application date, which is moved by [d]: for at least one record
    and a delay other than zero the loan tables differ. *)
Theorem application_dates_follow_clock
    (wall_clock : nat -> Py.datetime) (d : Z) (seed_value : Z) (n : nat)
    (w0 w : World) borrower_df alt_data_df loan_df :
  generate wall_clock seed_value n w0
    = (Ok (borrower_df, alt_data_df, loan_df), w) ->
  generate (later wall_clock d) seed_value n w0
    = (Ok (borrower_df, alt_data_df, shift_dates d loan_df), w) /\
  ((0 < n)%nat -> d <> 0%Z ->
   LoanData.application_date (shift_dates d loan_df)
     <> LoanData.application_date loan_df).
Proof.
  intros E. split.
  - rewrite generate_later. unfold bind. by rewrite E.
  - intros Hn Hd.
    destruct (generate_spec wall_clock seed_value n w0)
      as (t & w' & E' & _ & Hok).
    rewrite E in E'. injection E' as <- <-.
    destruct Hok as (_ & _ & (_ & Hshape & _) & _).
    destruct Hshape as (_ & _ & _ & _ & _ & _ & Hlen & _).
    simpl. destruct (LoanData.application_date loan_df) as [|t ts];
      [simpl in Hlen; lia|].
    simpl. intros H. injection H as H _. lia.
Qed.

End Reproducibility.

(** Two runs of the stand-in, a day apart. *)
Lemma application_dates_follow_clock_run :
  exists borrower_df alt_data_df loan_df w,
    @generate Lcg.random (Lcg.clock 0) 42 3 (Lcg.world 0)
      = (Ok (borrower_df, alt_data_df, loan_df), w) /\
    @generate Lcg.random (later (Lcg.clock 0) 86400000000) 42 3 (Lcg.world 0)
      = (Ok (borrower_df, alt_data_df, shift_dates 86400000000 loan_df), w) /\
    LoanData.application_date (shift_dates 86400000000 loan_df)
      <> LoanData.application_date loan_df.
Proof.
  assert (E : exists b a l,
             fst (@generate Lcg.random (Lcg.clock 0) 42 3 (Lcg.world 0))
             = Ok (b, a, l))
    by (eexists _, _, _; vm_compute; reflexivity).
  destruct E as (b & a & l & E).
  exists b, a, l, (snd (@generate Lcg.random (Lcg.clock 0) 42 3 (Lcg.world 0))).
  assert (E' : @generate Lcg.random (Lcg.clock 0) 42 3 (Lcg.world 0)
               = (Ok (b, a, l),
                  snd (@generate Lcg.random (Lcg.clock 0) 42 3 (Lcg.world 0))))
    by (rewrite <- E; apply surjective_pairing).
  destruct (application_dates_follow_clock
              (Lcg.clock 0) 86400000000 42 3 _ _ _ _ _ E') as [H1 H2].
  split; [exact E'|]. split; [exact H1|]. apply H2; [lia | discriminate].
Defined.

(** ** Writing the artifacts *)

Section Saving.

Context {R : RandomState}.
Variable wall_clock : nat -> Py.datetime.
Variable writable : string -> bool.

(** C7, as the code has it.  The four artifacts are written one after the
    other and nothing is undone: after a run the files are those of the
    start with the first [k] artifacts written over them, where the first
    [k] paths were writable; either [k] is 4 and the run ends normally, or
    the next path could not be written and the run ends with the error
    for that path, the later artifacts unwritten. *)
Theorem writes_stop_at_first_failure (seed_value : Z) (n : nat) (w0 : World) :
  exists tables k,
    fst (generate wall_clock seed_value n w0) = Ok tables /\
    let out := main wall_clock writable seed_value n w0 in
    (k <= 4)%nat /\
    fs (snd out) = written (fs w0) (take k (artifacts tables)) /\
    Forall (fun pa => writable (fst pa) = true) (take k (artifacts tables)) /\
    match artifacts tables !! k with
    | Some (path, _) =>
        writable path = false /\ fst out = Raise (OSError path)
    | None => fst out = Ok tt
    end.
Proof.
  destruct (generate_spec wall_clock seed_value n w0)
    as ([[borrower_df alt_data_df] loan_df] & w & E & Hfs & _).
  exists (borrower_df, alt_data_df, loan_df).
  unfold main, bind. rewrite E. simpl fst.
  unfold save, to_csv, bind, write_file.
  destruct (writable "sample_borrower_data.csv") eqn:W1;
    [destruct (writable "sample_alternative_data.csv") eqn:W2;
     [destruct (writable "sample_loan_data.csv") eqn:W3;
      [destruct (writable "data_generation_guidelines.txt") eqn:W4|]|]|];
    [exists 4%nat | exists 3%nat | exists 2%nat | exists 1%nat | exists 0%nat];
    (split; [reflexivity|]); cbn; rewrite ?Hfs;
    repeat split; try lia; try assumption;
    repeat (constructor; [assumption|]); constructor.
Qed.

End Saving.

(** C7, as stated, fails: on a disk that refuses the loan table the run
    ends with the error for that file and leaves two of the four artifacts
    in a directory that was empty. *)
Lemma partial_artifacts_after_failed_write :
  let out := @main Lcg.random (Lcg.clock 0) Lcg.disk_refusing_loans 42 3
               (Lcg.world 0) in
  fst out = Raise (OSError "sample_loan_data.csv") /\
  is_Some (fs (snd out) !! "sample_borrower_data.csv"%string) /\
  is_Some (fs (snd out) !! "sample_alternative_data.csv"%string) /\
  fs (snd out) !! "sample_loan_data.csv"%string = None /\
  fs (snd out) !! "data_generation_guidelines.txt"%string = None.
Proof.
  cbv zeta. split; [vm_compute; reflexivity|].
  split; [eexists; vm_compute; reflexivity|].
  split; [eexists; vm_compute; reflexivity|].
  split; vm_compute; reflexivity.
Qed.

(** The files of two complete runs of the stand-in, a day apart: the loan
    table on disk differs, the other three artifacts do not. *)
Lemma loan_file_depends_on_clock :
  let first := @main Lcg.random (Lcg.clock 0) Lcg.disk_ok 42 3 (Lcg.world 0) in
  let second := @main Lcg.random (later (Lcg.clock 0) 86400000000) Lcg.disk_ok
                  42 3 (Lcg.world 0) in
  fst first = Ok tt /\ fst second = Ok tt /\
  fs (snd first) !! "sample_loan_data.csv"%string
    <> fs (snd second) !! "sample_loan_data.csv"%string /\
  fs (snd first) !! "sample_borrower_data.csv"%string
    = fs (snd second) !! "sample_borrower_data.csv"%string /\
  fs (snd first) !! "sample_alternative_data.csv"%string
    = fs (snd second) !! "sample_alternative_data.csv"%string /\
  fs (snd first) !! "data_generation_guidelines.txt"%string
    = fs (snd second) !! "data_generation_guidelines.txt"%string.
Proof.
  cbv zeta. split; [vm_compute; reflexivity|].
  split; [vm_compute; reflexivity|].
  split; [vm_compute; congruence|].
  split; [vm_compute; reflexivity|].
  split; vm_compute; reflexivity.
Qed.

(** ** The theorems on a run of the stand-in *)

(** C2 on the first row of a run of three records. *)
Lemma default_probability_stored_and_sampled_run :
  exists borrower_df alt_data_df loan_df w row alt_row loan_row noise u,
    @generate Lcg.random (Lcg.clock 0) 42 3 (Lcg.world 0)
      = (Ok (borrower_df, alt_data_df, loan_df), w) /\
    borrower_iloc borrower_df 0 = Some row /\
    alt_iloc alt_data_df 0 = Some alt_row /\
    loan_iloc loan_df 0 = Some loan_row /\
    Loan.default_probability loan_row
      = Py.max 0.02
          (Py.min 0.95 (0.15 + (risk_before_noise row alt_row + noise))) /\
    0.02 <= Loan.default_probability loan_row /\
    Loan.default_probability loan_row <= 0.95 /\
    (0 <= u /\ u < 1) /\
    Loan.is_default loan_row = Py.ltb u (Loan.default_probability loan_row) /\
    (0.02 <= 0.15 + (risk_before_noise row alt_row + noise) ->
     0.15 + (risk_before_noise row alt_row + noise) <= 0.95 ->
     Loan.default_probability loan_row
       == 0.15 + (risk_before_noise row alt_row + noise)) /\
    (Loan.is_default loan_row = true <-> u < Loan.default_probability loan_row).
Proof.
  destruct (@default_probability_stored_and_sampled Lcg.random (Lcg.clock 0)
              42 3 (Lcg.world 0)) as (b & a & l & w & E & H).
  destruct (H 0%nat ltac:(lia))
    as (row & alt_row & loan_row & noise & u
        & H1 & H2 & H3 & _ & H5 & H6 & H7 & _ & H9 & H10
        & _ & _ & H13 & H14).
  exists b, a, l, w, row, alt_row, loan_row, noise, u.
  repeat (split; [assumption|]). split; [exact (H9 Lcg_support)|].
  split; [exact H10|]. split; [exact H13 | exact H14].
Defined.

(** C6 on the first row of a run of three records. *)
Lemma clamped_fields_in_range_run :
  exists borrower_df alt_data_df loan_df w row loan_row,
    @generate Lcg.random (Lcg.clock 0) 42 3 (Lcg.world 0)
      = (Ok (borrower_df, alt_data_df, loan_df), w) /\
    borrower_iloc borrower_df 0 = Some row /\
    loan_iloc loan_df 0 = Some loan_row /\
    ((18 <= Borrower.age row <= 70)%Z /\
     (15000 <= Borrower.income row <= 2000000)%Z /\
     (0 <= Borrower.credit_history_months row <= 120)%Z /\
     (3 <= Borrower.bank_account_age_months row <= 240)%Z) /\
    ((10000 <= Loan.loan_amount loan_row <= 1000000)%Z /\
     (8 <= Loan.interest_rate loan_row /\ Loan.interest_rate loan_row <= 25) /\
     (300 <= Loan.credit_score_traditional loan_row <= 850)%Z /\
     (0.02 <= Loan.default_probability loan_row /\
      Loan.default_probability loan_row <= 0.95)).
Proof.
  destruct (@clamped_fields_in_range Lcg.random (Lcg.clock 0) 42 3 (Lcg.world 0))
    as (b & a & l & w & E & Hrows & Hb & Hl).
  destruct (Hrows 0%nat ltac:(lia)) as [[row Hrow] [loan_row Hlrow]].
  exists b, a, l, w, row, loan_row.
  split; [exact E|]. split; [exact Hrow|]. split; [exact Hlrow|].
  split; [exact (Hb _ _ Hrow) | exact (Hl _ _ Hlrow)].
Defined.

(** C9 on the first row of a run of three records. *)
Lemma referential_integrity_run :
  exists borrower_df alt_data_df loan_df w loan_row,
    @generate Lcg.random (Lcg.clock 0) 42 3 (Lcg.world 0)
      = (Ok (borrower_df, alt_data_df, loan_df), w) /\
    loan_iloc loan_df 0 = Some loan_row /\
    borrower_matches borrower_df (Loan.borrower_id loan_row) = [0%nat] /\
    alt_matches alt_data_df (Loan.borrower_id loan_row) = [0%nat].
Proof.
  destruct (@referential_integrity Lcg.random (Lcg.clock 0) 42 3 (Lcg.world 0))
    as (b & a & l & w & E & Hrows & H).
  destruct (Hrows 0%nat ltac:(lia)) as [loan_row Hrow].
  exists b, a, l, w, loan_row.
  split; [exact E|]. split; [exact Hrow|]. exact (H _ _ Hrow).
Defined.

(** C10 on the first row of a run of three records. *)
Lemma alt_fields_in_support_run :
  exists borrower_df alt_data_df loan_df w row,
    @generate Lcg.random (Lcg.clock 0) 42 3 (Lcg.world 0)
      = (Ok (borrower_df, alt_data_df, loan_df), w) /\
    alt_iloc alt_data_df 0 = Some row /\
    (0 <= Alt.utility_bill_payment_consistency row /\
     Alt.utility_bill_payment_consistency row <= 1) /\
    (0 <= Alt.location_stability_score row /\
     Alt.location_stability_score row <= 1) /\
    (0 <= Alt.gst_returns_filed row <= 12)%Z /\
    (0 <= Alt.upi_transactions_monthly row)%Z /\
    (0 <= Alt.mobile_recharge_frequency row)%Z /\
    (0 <= Alt.ecommerce_transactions_monthly row)%Z /\
    (0 <= Alt.digital_wallet_balance_avg row)%Z /\
    (0 <= Alt.social_media_financial_mentions row)%Z /\
    (0 <= Alt.app_usage_financial_minutes_daily row)%Z.
Proof.
  destruct (@alt_fields_in_support Lcg.random (Lcg.clock 0) 42 3 (Lcg.world 0)
              Lcg_support) as (b & a & l & w & E & Hrows & H).
  destruct (Hrows 0%nat ltac:(lia)) as [row Hrow].
  exists b, a, l, w, row.
  split; [exact E|]. split; [exact Hrow|]. exact (H _ _ Hrow).
Defined.


(** * Further properties *)

(** ** The heuristic as a function of its inputs *)

Ltac case_if :=
  match goal with
  | |- context [if ?c then _ else _] => destruct c eqn:?
  end.

(** X1.  Before the random factor the accumulated score lies between
    -0.68 and 0.30, so with a random factor of 0 the probability returned
    is at most 0.45; and the same three bounds hold of the score and the
    probability as the interpreter computes them on binary64 floats. *)
Theorem noise_free_probability_ceiling
    (row : Borrower.row) (alt_row : Alt.row) (alt64 : B64.alt_row) :
  -0.68 <= risk_before_noise row alt_row /\
  risk_before_noise row alt_row <= 0.3 /\
  bounded_probability row alt_row 0 <= 0.45 /\
  PrimFloat.leb (-0.68) (B64.risk_before_noise row alt64) = true /\
  PrimFloat.leb (B64.risk_before_noise row alt64) 0.3 = true /\
  PrimFloat.leb (B64.bounded_probability row alt64 0) 0.45 = true.
Proof.
  assert (H : -0.68 <= risk_before_noise row alt_row /\
              risk_before_noise row alt_row <= 0.3).
  { unfold risk_before_noise, age_factor, income_factor, employment_stability,
      alternative_data_factors, credit_history.
    cbv zeta. repeat case_if; split; lra. }
  destruct H as [Hlo Hhi]. split; [exact Hlo|]. split; [exact Hhi|].
  split.
  { unfold bounded_probability, raw_score, Py.max, Py.min. cbv zeta.
    repeat case_ltb; lra. }
  unfold B64.bounded_probability, B64.raw_score, B64.risk_before_noise,
    B64.age_factor, B64.income_factor, B64.employment_stability,
    B64.alternative_data_factors, B64.credit_history.
  cbv zeta.
  repeat case_if;
    (split; [vm_compute; reflexivity|]); split; vm_compute; reflexivity.
Qed.

Lemma age_factor_mono row1 row2 r1 r2 :
  Borrower.age row1 = Borrower.age row2 -> r2 <= r1 ->
  age_factor row2 r2 <= age_factor row1 r1.
Proof. intros H Hr. unfold age_factor. rewrite H. case_if; lra. Qed.

Lemma income_factor_mono row1 row2 r1 r2 :
  (Borrower.income row1 <= Borrower.income row2)%Z -> r2 <= r1 ->
  income_factor row2 r2 <= income_factor row1 r1.
Proof.
  intros H Hr. unfold income_factor.
  destruct (Z.ltb_spec 50000 (Borrower.income row2));
    destruct (Z.ltb_spec 50000 (Borrower.income row1));
    destruct (Z.ltb_spec (Borrower.income row2) 25000);
    destruct (Z.ltb_spec (Borrower.income row1) 25000);
    first [lra | exfalso; lia].
Qed.

Lemma employment_stability_mono row1 row2 r1 r2 :
  Borrower.employment_type row1 = Borrower.employment_type row2 -> r2 <= r1 ->
  employment_stability row2 r2 <= employment_stability row1 r1.
Proof. intros H Hr. unfold employment_stability. rewrite H. repeat case_if; lra. Qed.

Lemma alternative_data_factors_mono alt1 alt2 r1 r2 :
  Alt.utility_bill_payment_consistency alt1
    <= Alt.utility_bill_payment_consistency alt2 ->
  (Alt.upi_transactions_monthly alt1 <= Alt.upi_transactions_monthly alt2)%Z ->
  Alt.location_stability_score alt1 <= Alt.location_stability_score alt2 ->
  r2 <= r1 ->
  alternative_data_factors alt2 r2 <= alternative_data_factors alt1 r1.
Proof.
  intros Hu Hp Hl Hr. unfold alternative_data_factors. cbv zeta.
  destruct (Z.ltb_spec 30 (Alt.upi_transactions_monthly alt2));
    destruct (Z.ltb_spec 30 (Alt.upi_transactions_monthly alt1));
    try (exfalso; lia); repeat case_ltb; lra.
Qed.

Lemma credit_history_mono row1 row2 r1 r2 :
  (Borrower.credit_history_months row1 <= Borrower.credit_history_months row2)%Z ->
  r2 <= r1 ->
  credit_history row2 r2 <= credit_history row1 r1.
Proof.
  intros H Hr. unfold credit_history.
  destruct (Z.ltb_spec 24 (Borrower.credit_history_months row2));
    destruct (Z.ltb_spec 24 (Borrower.credit_history_months row1));
    first [lra | exfalso; lia].
Qed.

(** X2.  For two borrowers of the same age and employment type and the
    same random factor, the one with at least the income, the credit
    history, the utility-payment consistency, the UPI transactions and the
    location stability of the other never gets the higher probability. *)
Theorem stronger_profile_never_riskier
    (row1 row2 : Borrower.row) (alt1 alt2 : Alt.row) (noise : Q) :
  Borrower.age row1 = Borrower.age row2 ->
  Borrower.employment_type row1 = Borrower.employment_type row2 ->
  (Borrower.income row1 <= Borrower.income row2)%Z ->
  (Borrower.credit_history_months row1 <= Borrower.credit_history_months row2)%Z ->
  Alt.utility_bill_payment_consistency alt1
    <= Alt.utility_bill_payment_consistency alt2 ->
  (Alt.upi_transactions_monthly alt1 <= Alt.upi_transactions_monthly alt2)%Z ->
  Alt.location_stability_score alt1 <= Alt.location_stability_score alt2 ->
  bounded_probability row2 alt2 noise <= bounded_probability row1 alt1 noise.
Proof.
  intros Hage Hemp Hinc Hch Hut Hupi Hloc.
  unfold bounded_probability. apply max_min_mono.
  assert (H : risk_before_noise row2 alt2 <= risk_before_noise row1 alt1).
  { unfold risk_before_noise. cbv zeta.
    apply credit_history_mono; [exact Hch|].
    apply alternative_data_factors_mono; [exact Hut | exact Hupi | exact Hloc|].
    apply employment_stability_mono; [exact Hemp|].
    apply income_factor_mono; [exact Hinc|].
    apply age_factor_mono; [exact Hage | lra]. }
  unfold raw_score. cbv zeta. lra.
Qed.

(** X3.  All else equal, a Salaried borrower never gets a higher
    probability, and a Self-Employed borrower never a lower one, than a
    borrower of any employment type, listed or not. *)
Theorem employment_order (row : Borrower.row) (alt_row : Alt.row)
    (noise : Q) (e : string) :
  bounded_probability (with_employment row "Salaried") alt_row noise
    <= bounded_probability (with_employment row e) alt_row noise /\
  bounded_probability (with_employment row e) alt_row noise
    <= bounded_probability (with_employment row "Self-Employed") alt_row noise.
Proof.
  assert (M : forall e1 e2,
             (forall r, employment_stability (with_employment row e2) r
                        <= employment_stability (with_employment row e1) r) ->
             bounded_probability (with_employment row e2) alt_row noise
               <= bounded_probability (with_employment row e1) alt_row noise).
  { intros e1 e2 He. unfold bounded_probability. apply max_min_mono.
    unfold raw_score, risk_before_noise. cbv zeta.
    assert (risk :
      credit_history (with_employment row e2)
        (alternative_data_factors alt_row
           (employment_stability (with_employment row e2)
              (income_factor (with_employment row e2)
                 (age_factor (with_employment row e2) 0))))
      <= credit_history (with_employment row e1)
           (alternative_data_factors alt_row
              (employment_stability (with_employment row e1)
                 (income_factor (with_employment row e1)
                    (age_factor (with_employment row e1) 0))))).
    { apply credit_history_mono; [simpl; lia|].
      apply alternative_data_factors_mono; [lra | lia | lra |].
      apply He. }
    lra. }
  split; apply M; intros r; unfold employment_stability, with_employment; simpl;
    repeat case_if; lra.
Qed.

(** X4.  The probability returned does not decrease when the random factor
    grows. *)
Theorem probability_monotone_in_noise
    (row : Borrower.row) (alt_row : Alt.row) (noise1 noise2 : Q) :
  noise1 <= noise2 ->
  bounded_probability row alt_row noise1 <= bounded_probability row alt_row noise2.
Proof.
  intros H. unfold bounded_probability, raw_score, Py.max, Py.min. cbv zeta.
  generalize (risk_before_noise row alt_row). intros risk.
  repeat case_ltb; lra.
Qed.

Lemma stronger_profile_never_riskier_run :
  bounded_probability (Sample.borrower 35 60000) Sample.alt 0
    <= bounded_probability (Sample.borrower 35 20000) Sample.alt 0.
Proof.
  apply stronger_profile_never_riskier;
    first [reflexivity | simpl; lia | simpl; lra].
Defined.

Lemma probability_monotone_in_noise_run :
  bounded_probability (Sample.borrower 60 20000) Sample.alt 0
    <= bounded_probability (Sample.borrower 60 20000) Sample.alt 0.1.
Proof. apply probability_monotone_in_noise. lra. Defined.

(** ** Reading a run backwards *)

Section Inversion.

Context {R : RandomState}.

Lemma generates_inv {A} (m : M A) (P : A -> Prop) (w w' : World) (a : A) :
  generates m P -> m w = (Ok a, w') -> P a.
Proof.
  intros H E. destruct (H w) as (a0 & w0 & E0 & _ & Pa).
  rewrite E in E0. by injection E0 as -> _.
Qed.

Lemma BorrowerDataFrame_Ok_inv d df (w w' : World) :
  BorrowerDataFrame d w = (Ok df, w') -> df = d /\ w' = w.
Proof.
  unfold BorrowerDataFrame. destruct (same_length _ _); [|discriminate].
  unfold ret. intros H. by injection H as <- <-.
Qed.

Lemma AltDataFrame_Ok_inv d df (w w' : World) :
  AltDataFrame d w = (Ok df, w') -> df = d /\ w' = w.
Proof.
  unfold AltDataFrame. destruct (same_length _ _); [|discriminate].
  unfold ret. intros H. by injection H as <- <-.
Qed.

Lemma LoanDataFrame_Ok_inv d df (w w' : World) :
  LoanDataFrame d w = (Ok df, w') -> df = d /\ w' = w.
Proof.
  unfold LoanDataFrame. destruct (same_length _ _); [|discriminate].
  unfold ret. intros H. by injection H as <- <-.
Qed.

Lemma ret_Ok_inv {A} (a b : A) (w w' : World) :
  ret a w = (Ok b, w') -> b = a /\ w' = w.
Proof. unfold ret. intros H. by injection H as <- <-. Qed.

(** The stages of a run that returned. *)
Lemma generate_inv wall_clock seed_value n (w0 w : World) b a l :
  generate wall_clock seed_value n w0 = (Ok (b, a, l), w) ->
  exists d probs ld w1 w2 w3,
    make_borrower_data n (set_rng (np_seed seed_value) w0) = (Ok d, w1) /\
    b = clip_borrower_data d /\
    make_alt_data n b w1 = (Ok a, w2) /\
    default_probs_loop n b a w2 = (Ok probs, w3) /\
    make_loan_data wall_clock n b probs w3 = (Ok ld, w) /\
    l = clip_loan_data ld.
Proof.
  unfold generate. intros E.
  apply bind_Ok_inv in E as (u & ws & Es & E).
  unfold seed in Es. injection Es as _ <-.
  apply bind_Ok_inv in E as (d & w1 & E1 & E).
  apply bind_Ok_inv in E as (b' & w1' & Eb & E).
  apply BorrowerDataFrame_Ok_inv in Eb as [-> ->].
  apply bind_Ok_inv in E as (ad & w2 & E2 & E).
  apply bind_Ok_inv in E as (a' & w2' & Ea & E).
  apply AltDataFrame_Ok_inv in Ea as [-> ->].
  apply bind_Ok_inv in E as (probs & w3 & E3 & E).
  apply bind_Ok_inv in E as (ld & w4 & E4 & E).
  apply bind_Ok_inv in E as (l' & w4' & El & E).
  apply LoanDataFrame_Ok_inv in El as [-> ->].
  apply ret_Ok_inv in E as [E ->]. injection E as -> -> ->.
  exists d, probs, ld, w1, w2, w3. auto 10.
Qed.

(** The draws behind the columns of [borrower_data]. *)
Lemma make_borrower_data_inv n (w w' : World) d :
  make_borrower_data n w = (Ok d, w') ->
  exists wa wb wc wd we wf,
    choice ["Salaried"; "Self-Employed"; "Business Owner"; "Freelancer"]%string
      n [0.4; 0.3; 0.2; 0.1] wa = (Ok (BorrowerData.employment_type d), wb) /\
    choice ["Tier 1"; "Tier 2"; "Tier 3"]%string n [0.3; 0.4; 0.3] wb
      = (Ok (BorrowerData.city_tier d), wc) /\
    choice ["Graduate"; "Post-Graduate"; "Undergraduate"; "Diploma"]%string
      n [0.4; 0.25; 0.25; 0.1] wc = (Ok (BorrowerData.education d), wd) /\
    draws n (np_poisson 1.2) we = (Ok (BorrowerData.existing_loans d), wf).
Proof.
  unfold make_borrower_data. intros E.
  apply bind_Ok_inv in E as (age & w1 & E1 & E).
  apply bind_Ok_inv in E as (income & w2 & E2 & E).
  apply bind_Ok_inv in E as (emp & w3 & E3 & E).
  apply bind_Ok_inv in E as (tier & w4 & E4 & E).
  apply bind_Ok_inv in E as (edu & w5 & E5 & E).
  apply bind_Ok_inv in E as (loans & w6 & E6 & E).
  apply bind_Ok_inv in E as (history & w7 & E7 & E).
  apply bind_Ok_inv in E as (account & w8 & E8 & E).
  apply ret_Ok_inv in E as [-> ->]. simpl.
  exists w2, w3, w4, w5, w5, w6. auto.
Qed.

(** The draws behind the columns of [loan_data]. *)
Lemma make_loan_data_inv wall_clock n b probs (w w' : World) ld :
  make_loan_data wall_clock n b probs w = (Ok ld, w') ->
  LoanData.loan_id ld = loan_ids n /\
  exists wa wb wc wd we wf wg,
    draws n (np_lognormal 10 0.8) w = (Ok wa.1, wa.2) /\
    choice [12; 18; 24; 36; 48]%Z n [0.2; 0.2; 0.3; 0.2; 0.1] wa.2
      = (Ok (LoanData.loan_tenure_months ld), wb) /\
    draws n (np_normal 16 3) wb = (Ok wc.1, wc.2) /\
    choice ["Personal"; "Business"; "Education"; "Medical";
            "Home Improvement"]%string n [0.4; 0.25; 0.15; 0.1; 0.1] wc.2
      = (Ok (LoanData.loan_purpose ld), wd) /\
    application_dates wall_clock n wd
      = (Ok (LoanData.application_date ld), we) /\
    sample_outcomes probs we = (Ok (LoanData.is_default ld), wf) /\
    draws n (np_normal 650 100) wf = (Ok wg, w').
Proof.
  unfold make_loan_data. intros E.
  apply bind_Ok_inv in E as (amount & w1 & E1 & E).
  apply bind_Ok_inv in E as (tenure & w2 & E2 & E).
  apply bind_Ok_inv in E as (interest & w3 & E3 & E).
  apply bind_Ok_inv in E as (purpose & w4 & E4 & E).
  apply bind_Ok_inv in E as (dates & w5 & E5 & E).
  apply bind_Ok_inv in E as (outcomes & w6 & E6 & E).
  apply bind_Ok_inv in E as (score & w7 & E7 & E).
  apply ret_Ok_inv in E as [-> ->]. simpl. split; [reflexivity|].
  exists (amount, w1), w2, (interest, w3), w4, w5, w6, score. auto 10.
Qed.

End Inversion.

(** ** Readings of the clock *)

Section ClockReads.

Context {R : RandomState}.

Lemma clock_quiet_run {A} (m : M A) (w w' : World) (r : result A) :
  clock_quiet m -> m w = (r, w') -> clock_reads w' = clock_reads w.
Proof. intros H E. specialize (H w). by rewrite E in H. Qed.

Lemma clock_quiet_ret {A} (a : A) : clock_quiet (ret a).
Proof. by intros w. Qed.

Lemma clock_quiet_raise {A} (e : exn) : clock_quiet (@raise R A e).
Proof. by intros w. Qed.

Lemma clock_quiet_bind {A B} (m : M A) (k : A -> M B) :
  clock_quiet m -> (forall a, clock_quiet (k a)) -> clock_quiet (bind m k).
Proof.
  intros Hm Hk w. unfold bind. specialize (Hm w).
  destruct (m w) as [[a|e] w1]; simpl in *; [|exact Hm].
  by rewrite Hk.
Qed.

Lemma clock_quiet_draw {A} (f : rng_state -> A * rng_state) :
  clock_quiet (draw f).
Proof. intros w. unfold draw. by destruct (f (rng w)). Qed.

Lemma clock_quiet_draws {A} (n : nat) (f : rng_state -> A * rng_state) :
  clock_quiet (draws n f).
Proof.
  induction n as [|n IH]; simpl; [apply clock_quiet_ret|].
  apply clock_quiet_bind; [apply clock_quiet_draw|]. intros x.
  apply clock_quiet_bind; [exact IH|]. intros xs. apply clock_quiet_ret.
Qed.

Lemma clock_quiet_choice {A} `{Inhabited A} (a : list A) (n : nat) (p : list Q) :
  clock_quiet (choice a n p).
Proof.
  unfold choice. apply clock_quiet_bind; [apply clock_quiet_draws|].
  intros idx. apply clock_quiet_ret.
Qed.

Lemma clock_quiet_index {A} (o : option A) : clock_quiet (index o).
Proof. destruct o; [apply clock_quiet_ret | apply clock_quiet_raise]. Qed.

Lemma clock_quiet_for_each {A B} (f : A -> M B) (l : list A) :
  (forall x, clock_quiet (f x)) -> clock_quiet (for_each f l).
Proof.
  intros Hf. induction l as [|x l IH]; simpl; [apply clock_quiet_ret|].
  apply clock_quiet_bind; [apply Hf|]. intros y.
  apply clock_quiet_bind; [exact IH|]. intros ys. apply clock_quiet_ret.
Qed.

Ltac quiet :=
  repeat first
    [ apply clock_quiet_ret | apply clock_quiet_raise
    | apply clock_quiet_draws | apply clock_quiet_draw
    | apply clock_quiet_choice | apply clock_quiet_index
    | apply clock_quiet_for_each; intros ?
    | apply clock_quiet_bind; [|intros ?] ].

Lemma clock_quiet_make_borrower_data n : clock_quiet (make_borrower_data n).
Proof. unfold make_borrower_data. quiet. Qed.

Lemma clock_quiet_make_alt_data n b : clock_quiet (make_alt_data n b).
Proof. unfold make_alt_data. quiet. Qed.

Lemma clock_quiet_default_probs_loop n b a :
  clock_quiet (default_probs_loop n b a).
Proof. unfold default_probs_loop, calculate_default_probability. quiet. Qed.

Lemma clock_quiet_sample_outcomes probs : clock_quiet (sample_outcomes probs).
Proof. unfold sample_outcomes. quiet. Qed.

Lemma application_dates_each wall_clock (l : list nat) (w w' : World) dates :
  for_each
    (fun _ : nat =>
       bind (datetime_now wall_clock)
         (fun now =>
            bind (draw (np_randint 1 365))
              (fun days => ret (now - Py.timedelta_days days)%Z)))
    l w = (Ok dates, w') ->
  clock_reads w' = (clock_reads w + length l)%nat /\
  forall i, (i < length l)%nat ->
    exists days,
      drawn (np_randint 1 365) days /\
      dates !! i
        = Some (wall_clock (clock_reads w + i)%nat - Py.timedelta_days days)%Z.
Proof.
  revert w dates. induction l as [|x l IH]; intros w dates E.
  - apply ret_Ok_inv in E as [-> ->]. simpl.
    split; [lia | intros i Hi; lia].
  - cbn [for_each] in E.
    rewrite !bind_assoc, bind_now, !bind_assoc, bind_draw, !bind_ret_l in E.
    apply bind_Ok_inv in E as (ys & w2 & E & Er).
    apply ret_Ok_inv in Er as [-> ->].
    apply IH in E as [Hreads Hdates]. cbn [clock_reads] in *.
    split; [simpl; lia|]. intros [|i] Hi.
    + exists (fst (np_randint 1 365 (rng w))).
      split; [by exists (rng w)|]. simpl. by rewrite Nat.add_0_r.
    + destruct (Hdates i) as (days & Hd & Hl); [simpl in Hi; lia|].
      exists days. split; [exact Hd|]. simpl. rewrite Hl.
      by replace (S (clock_reads w) + i)%nat with (clock_reads w + S i)%nat by lia.
Qed.

(** The comprehension of the application dates reads the clock once per
    element, in order, and subtracts a [randint(1, 365)] number of days. *)
Lemma application_dates_inv wall_clock n (w w' : World) dates :
  application_dates wall_clock n w = (Ok dates, w') ->
  clock_reads w' = (clock_reads w + n)%nat /\
  forall i, (i < n)%nat ->
    exists days,
      drawn (np_randint 1 365) days /\
      dates !! i
        = Some (wall_clock (clock_reads w + i)%nat - Py.timedelta_days days)%Z.
Proof.
  unfold application_dates. intros E.
  apply application_dates_each in E. by rewrite length_seq in E.
Qed.

End ClockReads.

(** ** Columns that are not clipped *)

Lemma borrower_iloc_inv_more d i row :
  borrower_iloc d i = Some row ->
  BorrowerData.employment_type d !! i = Some (Borrower.employment_type row) /\
  BorrowerData.city_tier d !! i = Some (Borrower.city_tier row) /\
  BorrowerData.education d !! i = Some (Borrower.education row) /\
  BorrowerData.existing_loans d !! i = Some (Borrower.existing_loans row).
Proof. unfold borrower_iloc. intros H. invert_iloc H. auto. Qed.

Lemma loan_iloc_inv_more d i row :
  loan_iloc d i = Some row ->
  LoanData.loan_id d !! i = Some (Loan.loan_id row) /\
  LoanData.loan_tenure_months d !! i = Some (Loan.loan_tenure_months row) /\
  LoanData.loan_purpose d !! i = Some (Loan.loan_purpose row) /\
  LoanData.application_date d !! i = Some (Loan.application_date row).
Proof. unfold loan_iloc. intros H. invert_iloc H. auto. Qed.

Section Unclipped.

Context {R : RandomState}.
Variable wall_clock : nat -> Py.datetime.

(** With a position inside [a], the values of [np.random.choice] are
    elements of [a]. *)
Lemma choice_members {A} `{Inhabited A} (a : list A) (n : nat) (p : list Q)
    (w w' : World) (l : list A) :
  RandomSupport R -> p <> [] -> length p = length a ->
  choice a n p w = (Ok l, w') ->
  Forall (fun x => In x a) l.
Proof.
  intros HS Hp Hlen E. unfold choice in E.
  apply bind_Ok_inv in E as (idx & w1 & E1 & E).
  apply ret_Ok_inv in E as [-> ->].
  pose proof (generates_inv _ _ _ _ _ (generates_draws n (np_choice p)) E1)
    as [_ Hidx].
  clear E1. induction Hidx as [|i idx [s ->] _ IH]; simpl; constructor; [|exact IH].
  apply list_elem_of_In, list_elem_of_lookup_total_2.
  rewrite <- Hlen. by apply choice_range.
Qed.

(** X5.  With samplers that stay in their supports, every categorical
    field holds one of the categories written in the script: employment
    type, city tier and education of a borrower row, tenure and purpose of
    a loan row. *)
Theorem categorical_fields_are_listed (seed_value : Z) (n : nat) (w0 : World) :
  RandomSupport R ->
  exists borrower_df alt_data_df loan_df w,
    generate wall_clock seed_value n w0
      = (Ok (borrower_df, alt_data_df, loan_df), w) /\
    (forall i, (i < n)%nat ->
       is_Some (borrower_iloc borrower_df i) /\ is_Some (loan_iloc loan_df i)) /\
    (forall i row, borrower_iloc borrower_df i = Some row ->
       In (Borrower.employment_type row)
         ["Salaried"; "Self-Employed"; "Business Owner"; "Freelancer"]%string /\
       In (Borrower.city_tier row) ["Tier 1"; "Tier 2"; "Tier 3"]%string /\
       In (Borrower.education row)
         ["Graduate"; "Post-Graduate"; "Undergraduate"; "Diploma"]%string) /\
    (forall i row, loan_iloc loan_df i = Some row ->
       In (Loan.loan_tenure_months row) [12; 18; 24; 36; 48]%Z /\
       In (Loan.loan_purpose row)
         ["Personal"; "Business"; "Education"; "Medical";
          "Home Improvement"]%string).
Proof.
  intros HS.
  destruct (generate_spec wall_clock seed_value n w0)
    as ([[borrower_df alt_data_df] loan_df] & w & E & _ & Hb & Ha & Hl & Hp).
  exists borrower_df, alt_data_df, loan_df, w. split; [exact E|].
  destruct Hb as (_ & Hbshape & _). destruct Hl as (_ & Hlshape & _).
  split; [intros i Hi; split;
          [by apply (borrower_iloc_Some n) | by apply (loan_iloc_Some n)]|].
  destruct (generate_inv _ _ _ _ _ _ _ _ E)
    as (d & probs & ld & w1 & w2 & w3 & E1 & -> & _ & _ & E4 & ->).
  apply make_borrower_data_inv in E1
    as (wa & wb & wc & wd & we & wf & Eemp & Etier & Eedu & _).
  apply make_loan_data_inv in E4
    as (_ & xa & xb & xc & xd & xe & xf & xg & _ & Eten & _ & Epur & _).
  apply choice_members in Eemp; [|exact HS|discriminate|reflexivity].
  apply choice_members in Etier; [|exact HS|discriminate|reflexivity].
  apply choice_members in Eedu; [|exact HS|discriminate|reflexivity].
  apply choice_members in Eten; [|exact HS|discriminate|reflexivity].
  apply choice_members in Epur; [|exact HS|discriminate|reflexivity].
  split.
  - intros i row Hrow. apply borrower_iloc_inv_more in Hrow as (H1 & H2 & H3 & _).
    split; [exact (Forall_lookup_1 _ _ _ _ Eemp H1)|].
    split; [exact (Forall_lookup_1 _ _ _ _ Etier H2)|].
    exact (Forall_lookup_1 _ _ _ _ Eedu H3).
  - intros i row Hrow. apply loan_iloc_inv_more in Hrow as (_ & H2 & H3 & _).
    split; [exact (Forall_lookup_1 _ _ _ _ Eten H2)|].
    exact (Forall_lookup_1 _ _ _ _ Epur H3).
Qed.

(** X6.  With samplers that stay in their supports, the number of existing
    loans of every borrower row is non-negative, although the column is
    not clipped. *)
Theorem existing_loans_nonnegative (seed_value : Z) (n : nat) (w0 : World) :
  RandomSupport R ->
  exists borrower_df alt_data_df loan_df w,
    generate wall_clock seed_value n w0
      = (Ok (borrower_df, alt_data_df, loan_df), w) /\
    (forall i, (i < n)%nat -> is_Some (borrower_iloc borrower_df i)) /\
    (forall i row, borrower_iloc borrower_df i = Some row ->
       (0 <= Borrower.existing_loans row)%Z).
Proof.
  intros HS.
  destruct (generate_spec wall_clock seed_value n w0)
    as ([[borrower_df alt_data_df] loan_df] & w & E & _ & Hb & Ha & Hl & Hp).
  exists borrower_df, alt_data_df, loan_df, w. split; [exact E|].
  destruct Hb as (_ & Hbshape & _).
  split; [intros i Hi; by apply (borrower_iloc_Some n)|].
  destruct (generate_inv _ _ _ _ _ _ _ _ E)
    as (d & probs & ld & w1 & w2 & w3 & E1 & -> & _).
  apply make_borrower_data_inv in E1
    as (wa & wb & wc & wd & we & wf & _ & _ & _ & Eloans).
  pose proof (generates_inv _ _ _ _ _ (generates_draws n (np_poisson 1.2)) Eloans)
    as [_ Hloans].
  intros i row Hrow. apply borrower_iloc_inv_more in Hrow as (_ & _ & _ & H4).
  destruct (Forall_lookup_1 _ _ _ _ Hloans H4) as [s ->].
  apply poisson_nonneg. lra.
Qed.

(** X7.  With samplers that stay in their supports, the application date
    of the loan at position [i] is the [i]-th reading of the clock during
    the run less a whole number of days between 1 and 364; and the run
    reads the clock once per loan. *)
Theorem application_dates_in_the_past (seed_value : Z) (n : nat) (w0 : World) :
  RandomSupport R ->
  exists borrower_df alt_data_df loan_df w,
    generate wall_clock seed_value n w0
      = (Ok (borrower_df, alt_data_df, loan_df), w) /\
    clock_reads w = (clock_reads w0 + n)%nat /\
    forall i, (i < n)%nat ->
      exists row days,
        loan_iloc loan_df i = Some row /\
        (1 <= days <= 364)%Z /\
        Loan.application_date row
          = (wall_clock (clock_reads w0 + i)%nat - Py.timedelta_days days)%Z.
Proof.
  intros HS.
  destruct (generate_spec wall_clock seed_value n w0)
    as ([[borrower_df alt_data_df] loan_df] & w & E & _ & Hb & Ha & Hl & Hp).
  exists borrower_df, alt_data_df, loan_df, w. split; [exact E|].
  destruct Hl as (_ & Hlshape & _).
  destruct (generate_inv _ _ _ _ _ _ _ _ E)
    as (d & probs & ld & w1 & w2 & w3 & E1 & -> & E2 & E3 & E4 & ->).
  apply (clock_quiet_run _ _ _ _ (clock_quiet_make_borrower_data n)) in E1.
  apply (clock_quiet_run _ _ _ _ (clock_quiet_make_alt_data n _)) in E2.
  apply (clock_quiet_run _ _ _ _ (clock_quiet_default_probs_loop n _ _)) in E3.
  apply make_loan_data_inv in E4
    as (_ & xa & xb & xc & xd & xe & xf & xg & Ea & Eb & Ec & Ed & Ee & Ef & Eg).
  apply (clock_quiet_run _ _ _ _ (clock_quiet_draws n _)) in Ea.
  apply (clock_quiet_run _ _ _ _ (clock_quiet_choice _ n _)) in Eb.
  apply (clock_quiet_run _ _ _ _ (clock_quiet_draws n _)) in Ec.
  apply (clock_quiet_run _ _ _ _ (clock_quiet_choice _ n _)) in Ed.
  apply application_dates_inv in Ee as [Hreads Hdates].
  apply (clock_quiet_run _ _ _ _ (clock_quiet_sample_outcomes _)) in Ef.
  apply (clock_quiet_run _ _ _ _ (clock_quiet_draws n _)) in Eg.
  simpl in E1.
  assert (Hxd : clock_reads xd = clock_reads w0) by congruence.
  split; [congruence|]. intros i Hi.
  destruct (loan_iloc_Some n _ i Hlshape Hi) as [row Hrow].
  destruct (Hdates i Hi) as (days & [s ->] & Hd).
  exists row, (fst (np_randint 1 365 s)). split; [exact Hrow|].
  split; [pose proof (randint_range 1 365 s ltac:(lia)); lia|].
  apply loan_iloc_inv_more in Hrow as (_ & _ & _ & H4).
  simpl in H4. rewrite Hxd in Hd.
  pose proof (eq_trans (eq_sym H4) Hd) as Heq. by injection Heq.
Qed.

End Unclipped.

(** ** Identifiers of the rows *)

Lemma NoDup_loan_ids n : NoDup (loan_ids n).
Proof.
  unfold loan_ids. apply NoDup_fmap_2; [|apply NoDup_seq].
  intros i j Hij. cbn [String.append] in Hij. injection Hij as Hij.
  apply (f_equal numeral_value) in Hij.
  change (numeral_value (Py.zfill 8 (Py.str i))
          = numeral_value (Py.zfill 8 (Py.str j))) in Hij.
  rewrite !numeral_value_zfill in Hij. congruence.
Qed.

Lemma borrower_ids_lookup n i :
  (i < n)%nat ->
  borrower_ids n !! i = Some ("BRW" ++ Py.zfill 6 (Py.str (S i)))%string.
Proof.
  intros Hi. unfold borrower_ids.
  change (map ?f ?l) with (f <$> l).
  by rewrite list_lookup_fmap, lookup_seq_lt.
Qed.

Lemma loan_ids_lookup n i :
  (i < n)%nat ->
  loan_ids n !! i = Some ("LN" ++ Py.zfill 8 (Py.str (S i)))%string.
Proof.
  intros Hi. unfold loan_ids.
  change (map ?f ?l) with (f <$> l).
  by rewrite list_lookup_fmap, lookup_seq_lt.
Qed.

Section Identifiers.

Context {R : RandomState}.
Variable wall_clock : nat -> Py.datetime.

Lemma generate_loan_ids seed_value n (w0 w : World) b a l :
  generate wall_clock seed_value n w0 = (Ok (b, a, l), w) ->
  LoanData.loan_id l = loan_ids n.
Proof.
  intros E.
  destruct (generate_inv _ _ _ _ _ _ _ _ E)
    as (d & probs & ld & w1 & w2 & w3 & _ & _ & _ & _ & E4 & ->).
  apply make_loan_data_inv in E4 as [Hid _]. exact Hid.
Qed.

(** X8.  The rows at position [i] of the three tables carry the
    identifiers numbered [i + 1]: the borrower, alternative-data and loan
    rows carry BRW followed by [i + 1] padded to six digits, the loan row
    carries LN followed by [i + 1] padded to eight digits, and the digits
    of both read back as [i + 1]. *)
Theorem identifiers_number_the_rows (seed_value : Z) (n : nat) (w0 : World) :
  exists borrower_df alt_data_df loan_df w,
    generate wall_clock seed_value n w0
      = (Ok (borrower_df, alt_data_df, loan_df), w) /\
    forall i, (i < n)%nat ->
      exists row alt_row loan_row,
        borrower_iloc borrower_df i = Some row /\
        alt_iloc alt_data_df i = Some alt_row /\
        loan_iloc loan_df i = Some loan_row /\
        Borrower.borrower_id row
          = ("BRW" ++ Py.zfill 6 (Py.str (S i)))%string /\
        Alt.borrower_id alt_row = Borrower.borrower_id row /\
        Loan.borrower_id loan_row = Borrower.borrower_id row /\
        Loan.loan_id loan_row = ("LN" ++ Py.zfill 8 (Py.str (S i)))%string /\
        numeral_value (Py.zfill 6 (Py.str (S i))) = Some (S i) /\
        numeral_value (Py.zfill 8 (Py.str (S i))) = Some (S i).
Proof.
  destruct (generate_spec wall_clock seed_value n w0)
    as ([[borrower_df alt_data_df] loan_df] & w & E & _ & Hb & Ha & Hl & Hp).
  exists borrower_df, alt_data_df, loan_df, w. split; [exact E|].
  pose proof (generate_loan_ids _ _ _ _ _ _ _ E) as Hlid.
  destruct Hb as (Hbid & Hbshape & _). destruct Ha as (Haid & Hashape & _).
  destruct Hl as (Hlbid & Hlshape & _).
  intros i Hi.
  destruct (borrower_iloc_Some n _ i Hbshape Hi) as [row Hrow].
  destruct (alt_iloc_Some n _ i Hashape Hi) as [alt_row Harow].
  destruct (loan_iloc_Some n _ i Hlshape Hi) as [loan_row Hlrow].
  exists row, alt_row, loan_row.
  split; [exact Hrow|]. split; [exact Harow|]. split; [exact Hlrow|].
  apply borrower_iloc_inv in Hrow as (H1 & _).
  apply alt_iloc_inv in Harow as (H2 & _).
  pose proof (loan_iloc_inv _ _ _ Hlrow) as (H3 & _).
  apply loan_iloc_inv_more in Hlrow as (H4 & _).
  rewrite Hbid, borrower_ids_lookup in H1 by exact Hi.
  rewrite Haid, borrower_ids_lookup in H2 by exact Hi.
  rewrite Hlbid, borrower_ids_lookup in H3 by exact Hi.
  rewrite Hlid, loan_ids_lookup in H4 by exact Hi.
  injection H1 as <-. injection H2 as <-. injection H3 as <-. injection H4 as <-.
  repeat (split; [reflexivity|]).
  split; apply numeral_value_zfill.
Qed.

(** X9.  Whatever the record count, no two rows of the loan table carry
    the same loan identifier. *)
Theorem loan_identifiers_unique (seed_value : Z) (n : nat) (w0 : World) :
  exists borrower_df alt_data_df loan_df w,
    generate wall_clock seed_value n w0
      = (Ok (borrower_df, alt_data_df, loan_df), w) /\
    (forall i, (i < n)%nat -> is_Some (loan_iloc loan_df i)) /\
    (forall i j row_i row_j,
       loan_iloc loan_df i = Some row_i ->
       loan_iloc loan_df j = Some row_j ->
       Loan.loan_id row_i = Loan.loan_id row_j ->
       i = j).
Proof.
  destruct (generate_spec wall_clock seed_value n w0)
    as ([[borrower_df alt_data_df] loan_df] & w & E & _ & Hb & Ha & Hl & Hp).
  exists borrower_df, alt_data_df, loan_df, w. split; [exact E|].
  pose proof (generate_loan_ids _ _ _ _ _ _ _ E) as Hlid.
  destruct Hl as (_ & Hlshape & _).
  split; [intros i Hi; by apply (loan_iloc_Some n)|].
  intros i j row_i row_j Hi Hj Heq.
  apply loan_iloc_inv_more in Hi as (Hi & _).
  apply loan_iloc_inv_more in Hj as (Hj & _).
  rewrite Heq in Hi.
  apply (NoDup_lookup (LoanData.loan_id loan_df) i j (Loan.loan_id row_j));
    [rewrite Hlid; apply NoDup_loan_ids | exact Hi | exact Hj].
Qed.

End Identifiers.

(** ** What a run depends on and what it touches *)

Section Effects.

Context {R : RandomState}.
Variable wall_clock : nat -> Py.datetime.
Variable writable : string -> bool.

Lemma main_files_when_writable seed_value n (w0 w : World) b a l :
  (forall path, In path output_paths -> writable path = true) ->
  generate wall_clock seed_value n w0 = (Ok (b, a, l), w) ->
  let out := main wall_clock writable seed_value n w0 in
  fst out = Ok tt /\
  fs (snd out) !! "sample_borrower_data.csv"%string = Some (BorrowerCsv b) /\
  fs (snd out) !! "sample_alternative_data.csv"%string = Some (AltCsv a) /\
  fs (snd out) !! "sample_loan_data.csv"%string = Some (LoanCsv l) /\
  fs (snd out) !! "data_generation_guidelines.txt"%string
    = Some (Text data_generation_guidelines).
Proof.
  intros Hw E. unfold main, bind. rewrite E.
  unfold save, to_csv, bind, write_file.
  rewrite !Hw by (unfold output_paths; simpl; auto). simpl.
  split; [reflexivity|].
  repeat split; by simplify_map_eq.
Qed.

(** X11.  When the four paths can be written the run ends normally and
    each path holds its artifact, whatever it held before: the three
    tables that were generated and the guideline text. *)
Theorem complete_run_writes_all_four (seed_value : Z) (n : nat) (w0 : World) :
  (forall path, In path output_paths -> writable path = true) ->
  exists borrower_df alt_data_df loan_df,
    fst (generate wall_clock seed_value n w0)
      = Ok (borrower_df, alt_data_df, loan_df) /\
    let out := main wall_clock writable seed_value n w0 in
    fst out = Ok tt /\
    fs (snd out) !! "sample_borrower_data.csv"%string
      = Some (BorrowerCsv borrower_df) /\
    fs (snd out) !! "sample_alternative_data.csv"%string
      = Some (AltCsv alt_data_df) /\
    fs (snd out) !! "sample_loan_data.csv"%string = Some (LoanCsv loan_df) /\
    fs (snd out) !! "data_generation_guidelines.txt"%string
      = Some (Text data_generation_guidelines).
Proof.
  intros Hw.
  destruct (generate_spec wall_clock seed_value n w0)
    as ([[borrower_df alt_data_df] loan_df] & w & E & Hfs & _).
  exists borrower_df, alt_data_df, loan_df.
  split; [by rewrite E|]. by apply (main_files_when_writable _ _ _ w).
Qed.

(** X12.  A run, complete or aborted, leaves every file other than its
    four output paths as it was. *)
Theorem run_touches_only_its_outputs
    (seed_value : Z) (n : nat) (w0 : World) (path : string) :
  ~ In path output_paths ->
  fs (snd (main wall_clock writable seed_value n w0)) !! path = fs w0 !! path.
Proof.
  intros Hpath.
  assert (H1 : path <> "sample_borrower_data.csv"%string)
    by (intros ->; apply Hpath; simpl; auto).
  assert (H2 : path <> "sample_alternative_data.csv"%string)
    by (intros ->; apply Hpath; simpl; auto).
  assert (H3 : path <> "sample_loan_data.csv"%string)
    by (intros ->; apply Hpath; simpl; auto).
  assert (H4 : path <> "data_generation_guidelines.txt"%string)
    by (intros ->; apply Hpath; simpl; auto).
  destruct (generate_spec wall_clock seed_value n w0)
    as ([[borrower_df alt_data_df] loan_df] & w & E & Hfs & _).
  unfold main, bind. rewrite E.
  unfold save, to_csv, bind, write_file.
  repeat case_if; simpl; rewrite ?lookup_insert_ne by congruence;
    by rewrite Hfs.
Qed.

(** X13.  Each of the three tables has exactly as many rows as the record
    count says, none for a count of 0: position [i] holds a row exactly
    when [i] is below the count. *)
Theorem tables_have_n_rows (seed_value : Z) (n : nat) (w0 : World) :
  exists borrower_df alt_data_df loan_df w,
    generate wall_clock seed_value n w0
      = (Ok (borrower_df, alt_data_df, loan_df), w) /\
    forall i,
      ((i < n)%nat <-> is_Some (borrower_iloc borrower_df i)) /\
      ((i < n)%nat <-> is_Some (alt_iloc alt_data_df i)) /\
      ((i < n)%nat <-> is_Some (loan_iloc loan_df i)).
Proof.
  destruct (generate_spec wall_clock seed_value n w0)
    as ([[borrower_df alt_data_df] loan_df] & w & E & _ & Hb & Ha & Hl & Hp).
  exists borrower_df, alt_data_df, loan_df, w. split; [exact E|].
  destruct Hb as (_ & Hbshape & _). destruct Ha as (_ & Hashape & _).
  destruct Hl as (_ & Hlshape & _).
  intros i. split; [|split]; split.
  - by apply borrower_iloc_Some.
  - intros [row Hrow]. apply borrower_iloc_inv in Hrow as (H & _).
    apply lookup_lt_Some in H. destruct Hbshape as (Hlen & _). lia.
  - by apply alt_iloc_Some.
  - intros [row Hrow]. apply alt_iloc_inv in Hrow as (H & _).
    apply lookup_lt_Some in H. destruct Hashape as (Hlen & _). lia.
  - by apply loan_iloc_Some.
  - intros [row Hrow]. apply loan_iloc_inv_more in Hrow as (H & _).
    apply lookup_lt_Some in H. destruct Hlshape as (Hlen & _). lia.
Qed.

End Effects.

(** ** Width of the identifiers *)

Lemma string_length_app (s t : string) :
  String.length (s ++ t) = (String.length s + String.length t)%nat.
Proof. induction s as [|c s IH]; simpl; [reflexivity | by rewrite IH]. Qed.

Lemma zeros_length k : String.length (Py.zeros k) = k.
Proof.
  induction k as [|k IH]; [reflexivity|].
  change (S (String.length (Py.zeros k)) = S k). by rewrite IH.
Qed.

Lemma string_of_uint_length d :
  String.length (NilEmpty.string_of_uint d) = Decimal.nb_digits d.
Proof. induction d; simpl; congruence. Qed.

(** Padding a numeral never shortens it. *)
Lemma zfill_str_length width i :
  String.length (Py.zfill width (Py.str i))
  = Nat.max width (Decimal.nb_digits (Nat.to_uint i)).
Proof.
  pose proof (numeral_value_str i) as Hv.
  pose proof (string_of_uint_length (Nat.to_uint i)) as Hl.
  fold (Py.str i) in Hl. unfold Py.zfill.
  destruct (Py.str i) as [|c rest] eqn:E.
  - rewrite zeros_length, <- Hl. simpl. lia.
  - rewrite (numeral_not_signed _ _ _ Hv), string_length_app, zeros_length.
    rewrite <- Hl. lia.
Qed.

Lemma of_uint_acc_bounds d acc :
  (acc * 10 ^ Decimal.nb_digits d <= Nat.of_uint_acc d acc
   < (acc + 1) * 10 ^ Decimal.nb_digits d)%nat.
Proof.
  revert acc. induction d as [|d IH|d IH|d IH|d IH|d IH|d IH|d IH|d IH|d IH|d IH];
    intros acc; cbn [Nat.of_uint_acc Decimal.nb_digits];
    rewrite ?Nat.tail_mul_spec, ?Nat.pow_succ_r'; [simpl; lia|..];
    match goal with
    | |- context [Nat.of_uint_acc d ?a] => specialize (IH a)
    end; nia.
Qed.

(** The numeral of a number has no leading zero, the number 0 apart. *)
Lemma to_uint_head_zero i d :
  Nat.to_uint i = Decimal.D0 d -> d = Decimal.Nil.
Proof.
  intros H.
  assert (Hn : Decimal.unorm (Nat.to_uint i) = Nat.to_uint i).
  { rewrite <- (Unsigned.of_to i) at 2. by rewrite Unsigned.to_of. }
  rewrite H in Hn. unfold Decimal.unorm in Hn.
  rewrite DecimalFacts.nzhead_D0 in Hn.
  destruct (Decimal.nzhead d) as [|u|u|u|u|u|u|u|u|u|u] eqn:E;
    try discriminate Hn.
  - congruence.
  - exfalso. exact (DecimalFacts.nzhead_nonzero d u E).
Qed.

(** A number is below [10 ^ k] exactly when its numeral has at most [k]
    digits. *)
Lemma digits_bound i k :
  (0 < k)%nat ->
  (i < 10 ^ k)%nat <-> (Decimal.nb_digits (Nat.to_uint i) <= k)%nat.
Proof.
  intros Hk. pose proof (Unsigned.of_to i) as Hi. unfold Nat.of_uint in Hi.
  split.
  - intros Hlt.
    destruct (Nat.le_gt_cases (Decimal.nb_digits (Nat.to_uint i)) k) as [|Hgt];
      [assumption|]. exfalso.
    destruct (Nat.to_uint i) as [|d|d|d|d|d|d|d|d|d|d] eqn:E;
      cbn [Decimal.nb_digits Nat.of_uint_acc] in *.
    1: lia.
    1: { apply to_uint_head_zero in E. subst d. simpl in Hgt. lia. }
    all: rewrite Nat.tail_mul_spec in Hi;
      match type of Hi with
      | Nat.of_uint_acc ?u ?a = _ =>
          pose proof (of_uint_acc_bounds u a) as Hb;
          assert (Hge : (k <= Decimal.nb_digits u)%nat) by lia
      end;
      pose proof (Nat.pow_le_mono_r 10 _ _ ltac:(lia) Hge); nia.
  - intros Hle. pose proof (of_uint_acc_bounds (Nat.to_uint i) 0) as Hb.
    pose proof (Nat.pow_le_mono_r 10 _ _ ltac:(lia) Hle). lia.
Qed.

Lemma borrower_ids_lookup_inv n i id :
  borrower_ids n !! i = Some id ->
  id = ("BRW" ++ Py.zfill 6 (Py.str (S i)))%string.
Proof.
  intros H. pose proof (lookup_lt_Some _ _ _ H) as Hi.
  rewrite borrower_ids_length in Hi.
  rewrite borrower_ids_lookup in H by exact Hi. congruence.
Qed.

Lemma loan_ids_lookup_inv n i id :
  loan_ids n !! i = Some id ->
  id = ("LN" ++ Py.zfill 8 (Py.str (S i)))%string.
Proof.
  intros H. pose proof (lookup_lt_Some _ _ _ H) as Hi.
  rewrite loan_ids_length in Hi.
  rewrite loan_ids_lookup in H by exact Hi. congruence.
Qed.

Section Width.

Context {R : RandomState}.
Variable wall_clock : nat -> Py.datetime.

(** X14.  Identifiers have a fixed width while the numbers fit and are
    never cut: the borrower identifier of row [i] has 9 characters when
    [i + 1] is below a million and more beyond, and the loan identifier has
    10 characters when [i + 1] is below a hundred million and more
    beyond. *)
Theorem identifiers_keep_their_width (seed_value : Z) (n : nat) (w0 : World) :
  exists borrower_df alt_data_df loan_df w,
    generate wall_clock seed_value n w0
      = (Ok (borrower_df, alt_data_df, loan_df), w) /\
    (forall i, (i < n)%nat ->
       is_Some (borrower_iloc borrower_df i) /\ is_Some (loan_iloc loan_df i)) /\
    (forall i row, borrower_iloc borrower_df i = Some row ->
       ((S i < 10 ^ 6)%nat -> String.length (Borrower.borrower_id row) = 9%nat) /\
       ((10 ^ 6 <= S i)%nat -> (9 < String.length (Borrower.borrower_id row))%nat)) /\
    (forall i row, loan_iloc loan_df i = Some row ->
       ((S i < 10 ^ 8)%nat -> String.length (Loan.loan_id row) = 10%nat) /\
       ((10 ^ 8 <= S i)%nat -> (10 < String.length (Loan.loan_id row))%nat)).
Proof.
  destruct (generate_spec wall_clock seed_value n w0)
    as ([[borrower_df alt_data_df] loan_df] & w & E & _ & Hb & Ha & Hl & Hp).
  exists borrower_df, alt_data_df, loan_df, w. split; [exact E|].
  pose proof (generate_loan_ids _ _ _ _ _ _ _ _ E) as Hlid.
  destruct Hb as (Hbid & Hbshape & _). destruct Hl as (_ & Hlshape & _).
  split; [intros i Hi; split;
          [by apply (borrower_iloc_Some n) | by apply (loan_iloc_Some n)]|].
  split.
  - intros i row Hrow. apply borrower_iloc_inv in Hrow as (H1 & _).
    rewrite Hbid in H1. apply borrower_ids_lookup_inv in H1. rewrite H1.
    change (String.length ("BRW" ++ ?s)) with (S (S (S (String.length s)))).
    rewrite zfill_str_length.
    pose proof (digits_bound (S i) 6 ltac:(lia)) as Hd. split; intros Hi; lia.
  - intros i row Hrow. apply loan_iloc_inv_more in Hrow as (H1 & _).
    rewrite Hlid in H1. apply loan_ids_lookup_inv in H1. rewrite H1.
    change (String.length ("LN" ++ ?s)) with (S (S (String.length s))).
    rewrite zfill_str_length.
    pose proof (digits_bound (S i) 8 ltac:(lia)) as Hd. split; intros Hi; lia.
Qed.

End Width.

(** ** What the tables depend on *)

Section Dependence.

Context {R : RandomState}.
Variables clock clock' : nat -> Py.datetime.

Lemma agree_ret {A} (a : A) : agree clock clock' (ret a) (ret a).
Proof. by intros w w' H. Qed.

Lemma agree_raise {A} (e : exn) :
  agree clock clock' (@raise R A e) (raise e).
Proof. by intros w w' H. Qed.

Lemma bind_agree_at {A B} (m m' : M A) (k k' : A -> M B) (w w' : World) :
  fst (m w) = fst (m' w') /\
  same_future clock clock' (snd (m w)) (snd (m' w')) ->
  (forall a, agree clock clock' (k a) (k' a)) ->
  fst (bind m k w) = fst (bind m' k' w') /\
  same_future clock clock' (snd (bind m k w)) (snd (bind m' k' w')).
Proof.
  intros [Hr Hw] Hk. unfold bind.
  destruct (m w) as [[a|e] w1], (m' w') as [[a'|e'] w1']; simpl in *;
    try discriminate Hr.
  - injection Hr as <-. exact (Hk a w1 w1' Hw).
  - injection Hr as ->. split; [reflexivity | exact Hw].
Qed.

Lemma agree_bind {A B} (m m' : M A) (k k' : A -> M B) :
  agree clock clock' m m' ->
  (forall a, agree clock clock' (k a) (k' a)) ->
  agree clock clock' (bind m k) (bind m' k').
Proof. intros Hm Hk w w' H. apply bind_agree_at; [by apply Hm | exact Hk]. Qed.

Lemma agree_draw {A} (f : rng_state -> A * rng_state) :
  agree clock clock' (draw f) (draw f).
Proof.
  intros w w' [Hrng Hclock]. unfold draw. rewrite Hrng.
  destruct (f (rng w')) as [a s]. by repeat split.
Qed.

Lemma agree_draws {A} (n : nat) (f : rng_state -> A * rng_state) :
  agree clock clock' (draws n f) (draws n f).
Proof.
  induction n as [|n IH]; simpl; [apply agree_ret|].
  apply agree_bind; [apply agree_draw|]. intros x.
  apply agree_bind; [exact IH|]. intros xs. apply agree_ret.
Qed.

Lemma agree_choice {A} `{Inhabited A} (a : list A) (n : nat) (p : list Q) :
  agree clock clock' (choice a n p) (choice a n p).
Proof.
  unfold choice. apply agree_bind; [apply agree_draws|].
  intros idx. apply agree_ret.
Qed.

Lemma agree_index {A} (o : option A) :
  agree clock clock' (index o) (index o).
Proof. destruct o; [apply agree_ret | apply agree_raise]. Qed.

Lemma agree_now :
  agree clock clock' (datetime_now clock) (datetime_now clock').
Proof.
  intros w w' [Hrng Hclock]. unfold datetime_now. simpl. split.
  - f_equal. specialize (Hclock 0%nat). by rewrite !Nat.add_0_r in Hclock.
  - split; [exact Hrng|]. simpl. intros k. specialize (Hclock (S k)).
    by rewrite !Nat.add_succ_r in Hclock.
Qed.

Lemma agree_for_each {A B} (f f' : A -> M B) (l : list A) :
  (forall x, agree clock clock' (f x) (f' x)) ->
  agree clock clock' (for_each f l) (for_each f' l).
Proof.
  intros Hf. induction l as [|x l IH]; simpl; [apply agree_ret|].
  apply agree_bind; [apply Hf|]. intros y.
  apply agree_bind; [exact IH|]. intros ys. apply agree_ret.
Qed.

Lemma agree_if {A} (c : bool) (m1 m1' m2 m2' : M A) :
  agree clock clock' m1 m1' -> agree clock clock' m2 m2' ->
  agree clock clock' (if c then m1 else m2) (if c then m1' else m2').
Proof. by destruct c. Qed.

Ltac agreeing :=
  repeat first
    [ apply agree_ret | apply agree_raise | apply agree_now
    | apply agree_draws | apply agree_draw
    | apply agree_choice | apply agree_index
    | apply agree_if
    | apply agree_for_each; intros ?
    | apply agree_bind; [|intros ?] ].

Lemma generate_agrees (seed_value : Z) (n : nat) (w0 w0' : World) :
  (forall k, clock (clock_reads w0 + k)%nat = clock' (clock_reads w0' + k)%nat) ->
  fst (generate clock seed_value n w0) = fst (generate clock' seed_value n w0').
Proof.
  intros Hclock. unfold generate.
  apply bind_agree_at; [unfold seed; simpl; by repeat split|].
  intros _.
  unfold make_borrower_data, BorrowerDataFrame, make_alt_data, AltDataFrame,
    default_probs_loop, calculate_default_probability, make_loan_data,
    application_dates, sample_outcomes, LoanDataFrame.
  agreeing.
Qed.

(** X10.  The three tables are determined by the seed, the record count
    and the readings of the clock during the run: two runs that see the
    same readings return the same tables, whatever state the generator was
    left in, however often the clock was read before, and whatever files
    exist; and when both can write the four paths, each path holds the same
    artifact after the one run as after the other. *)
Theorem runs_with_same_readings_agree
    (writable writable' : string -> bool)
    (seed_value : Z) (n : nat) (w0 w0' : World) :
  (forall k, clock (clock_reads w0 + k)%nat = clock' (clock_reads w0' + k)%nat) ->
  fst (generate clock seed_value n w0) = fst (generate clock' seed_value n w0') /\
  ((forall path, In path output_paths ->
      writable path = true /\ writable' path = true) ->
   forall path, In path output_paths ->
     fs (snd (main clock writable seed_value n w0)) !! path
     = fs (snd (main clock' writable' seed_value n w0')) !! path).
Proof.
  intros Hclock. pose proof (generate_agrees seed_value n w0 w0' Hclock) as Heq.
  split; [exact Heq|]. intros Hw path Hpath.
  destruct (generate_spec clock seed_value n w0)
    as ([[b a] l] & w & E & _).
  destruct (generate_spec clock' seed_value n w0')
    as ([[b' a'] l'] & w' & E' & _).
  rewrite E, E' in Heq. simpl in Heq. injection Heq as <- <- <-.
  destruct (main_files_when_writable clock writable seed_value n w0 w b a l)
    as (_ & H1 & H2 & H3 & H4); [intros p Hp; by apply Hw | exact E|].
  destruct (main_files_when_writable clock' writable' seed_value n w0' w' b a l)
    as (_ & H1' & H2' & H3' & H4'); [intros p Hp; by apply Hw | exact E'|].
  unfold output_paths in Hpath. simpl in Hpath.
  destruct Hpath as [<-|[<-|[<-|[<-|[]]]]]; congruence.
Qed.

End Dependence.

(** ** The fields the heuristic reads *)

Lemma ltb_compat (a b b' : Q) : b == b' -> Py.ltb a b = Py.ltb a b'.
Proof. intros H. unfold Py.ltb. by rewrite H. Qed.

(** X15.  The probability is a function of seven fields and the random
    factor: two profiles with the same age, income, employment type and
    credit history, and the same utility-payment consistency, UPI
    transactions and location stability, get the same probability whatever
    their city tier, education, existing loans, bank account age, GST
    returns, recharges, e-commerce transactions, wallet balance,
    social-media mentions and app usage. *)
Theorem score_reads_seven_fields
    (row1 row2 : Borrower.row) (alt1 alt2 : Alt.row) (noise : Q) :
  Borrower.age row1 = Borrower.age row2 ->
  Borrower.income row1 = Borrower.income row2 ->
  Borrower.employment_type row1 = Borrower.employment_type row2 ->
  Borrower.credit_history_months row1 = Borrower.credit_history_months row2 ->
  Alt.utility_bill_payment_consistency alt1
    == Alt.utility_bill_payment_consistency alt2 ->
  Alt.upi_transactions_monthly alt1 = Alt.upi_transactions_monthly alt2 ->
  Alt.location_stability_score alt1 == Alt.location_stability_score alt2 ->
  bounded_probability row1 alt1 noise = bounded_probability row2 alt2 noise.
Proof.
  intros Hage Hinc Hemp Hch Hut Hupi Hloc.
  unfold bounded_probability, raw_score, risk_before_noise, age_factor,
    income_factor, employment_stability, alternative_data_factors,
    credit_history.
  cbv zeta. rewrite Hage, Hinc, Hemp, Hch, Hupi.
  by rewrite (ltb_compat _ _ _ Hut), (ltb_compat _ _ _ Hloc).
Qed.

Lemma score_reads_seven_fields_run :
  bounded_probability (Sample.borrower 35 60000) Sample.alt 0
  = bounded_probability (Sample.borrower 35 60000) sample_alt_elsewhere 0.
Proof.
  apply score_reads_seven_fields; first [reflexivity | apply Qeq_refl].
Defined.

(** ** The further properties on runs of the stand-in *)

Lemma noise_free_probability_ceiling_run :
  bounded_probability (Sample.borrower 60 20000) Sample.alt 0 <= 0.45 /\
  PrimFloat.leb
    (B64.bounded_probability (Sample.borrower 60 20000) Sample.alt64 0) 0.45
    = true.
Proof.
  destruct (noise_free_probability_ceiling
              (Sample.borrower 60 20000) Sample.alt Sample.alt64)
    as (_ & _ & H3 & _ & _ & H6).
  split; [exact H3 | exact H6].
Defined.

Lemma categorical_fields_are_listed_run :
  exists borrower_df alt_data_df loan_df w row loan_row,
    @generate Lcg.random (Lcg.clock 0) 42 3 (Lcg.world 0)
      = (Ok (borrower_df, alt_data_df, loan_df), w) /\
    borrower_iloc borrower_df 0 = Some row /\
    loan_iloc loan_df 0 = Some loan_row /\
    In (Borrower.employment_type row)
      ["Salaried"; "Self-Employed"; "Business Owner"; "Freelancer"]%string /\
    In (Loan.loan_tenure_months loan_row) [12; 18; 24; 36; 48]%Z.
Proof.
  destruct (@categorical_fields_are_listed Lcg.random (Lcg.clock 0) 42 3
              (Lcg.world 0) Lcg_support) as (b & a & l & w & E & Hrows & Hb & Hl).
  destruct (Hrows 0%nat ltac:(lia)) as [[row Hrow] [loan_row Hlrow]].
  exists b, a, l, w, row, loan_row.
  split; [exact E|]. split; [exact Hrow|]. split; [exact Hlrow|].
  split; [apply (Hb _ _ Hrow) | apply (Hl _ _ Hlrow)].
Defined.

Lemma existing_loans_nonnegative_run :
  exists borrower_df alt_data_df loan_df w row,
    @generate Lcg.random (Lcg.clock 0) 42 3 (Lcg.world 0)
      = (Ok (borrower_df, alt_data_df, loan_df), w) /\
    borrower_iloc borrower_df 0 = Some row /\
    (0 <= Borrower.existing_loans row)%Z.
Proof.
  destruct (@existing_loans_nonnegative Lcg.random (Lcg.clock 0) 42 3
              (Lcg.world 0) Lcg_support) as (b & a & l & w & E & Hrows & H).
  destruct (Hrows 0%nat ltac:(lia)) as [row Hrow].
  exists b, a, l, w, row.
  split; [exact E|]. split; [exact Hrow | exact (H _ _ Hrow)].
Defined.

Lemma application_dates_in_the_past_run :
  exists borrower_df alt_data_df loan_df w row days,
    @generate Lcg.random (Lcg.clock 0) 42 3 (Lcg.world 0)
      = (Ok (borrower_df, alt_data_df, loan_df), w) /\
    clock_reads w = 3%nat /\
    loan_iloc loan_df 2 = Some row /\
    (1 <= days <= 364)%Z /\
    Loan.application_date row = (Lcg.clock 0 2 - Py.timedelta_days days)%Z.
Proof.
  destruct (@application_dates_in_the_past Lcg.random (Lcg.clock 0) 42 3
              (Lcg.world 0) Lcg_support) as (b & a & l & w & E & Hreads & H).
  destruct (H 2%nat ltac:(lia)) as (row & days & Hrow & Hdays & Hdate).
  exists b, a, l, w, row, days.
  split; [exact E|]. split; [exact Hreads|]. split; [exact Hrow|].
  split; [exact Hdays | exact Hdate].
Defined.

Lemma identifiers_number_the_rows_run :
  exists borrower_df alt_data_df loan_df w row loan_row,
    @generate Lcg.random (Lcg.clock 0) 42 3 (Lcg.world 0)
      = (Ok (borrower_df, alt_data_df, loan_df), w) /\
    borrower_iloc borrower_df 2 = Some row /\
    loan_iloc loan_df 2 = Some loan_row /\
    Borrower.borrower_id row = "BRW000003"%string /\
    Loan.borrower_id loan_row = "BRW000003"%string /\
    Loan.loan_id loan_row = "LN00000003"%string.
Proof.
  destruct (@identifiers_number_the_rows Lcg.random (Lcg.clock 0) 42 3
              (Lcg.world 0)) as (b & a & l & w & E & H).
  destruct (H 2%nat ltac:(lia))
    as (row & alt_row & loan_row & H1 & H2 & H3 & H4 & H5 & H6 & H7 & _).
  exists b, a, l, w, row, loan_row.
  split; [exact E|]. split; [exact H1|]. split; [exact H3|].
  split; [exact H4|]. split; [by rewrite H6, H4 | exact H7].
Defined.

Lemma loan_identifiers_unique_run :
  exists borrower_df alt_data_df loan_df w row_0 row_1,
    @generate Lcg.random (Lcg.clock 0) 42 3 (Lcg.world 0)
      = (Ok (borrower_df, alt_data_df, loan_df), w) /\
    loan_iloc loan_df 0 = Some row_0 /\
    loan_iloc loan_df 1 = Some row_1 /\
    Loan.loan_id row_0 <> Loan.loan_id row_1.
Proof.
  destruct (@loan_identifiers_unique Lcg.random (Lcg.clock 0) 42 3
              (Lcg.world 0)) as (b & a & l & w & E & Hrows & H).
  destruct (Hrows 0%nat ltac:(lia)) as [row_0 H0].
  destruct (Hrows 1%nat ltac:(lia)) as [row_1 H1].
  exists b, a, l, w, row_0, row_1.
  split; [exact E|]. split; [exact H0|]. split; [exact H1|].
  intros Heq. pose proof (H _ _ _ _ H0 H1 Heq). lia.
Defined.

Lemma runs_with_same_readings_agree_run :
  fst (@generate Lcg.random (Lcg.clock 0) 42 3 (Lcg.world 0))
  = fst (@generate Lcg.random (fun k => Lcg.clock 0 (k - 5)) 42 3
           (@Build_World Lcg.random 99%Z 5 ∅)) /\
  fs (snd (@main Lcg.random (Lcg.clock 0) Lcg.disk_ok 42 3 (Lcg.world 0)))
    !! "sample_loan_data.csv"%string
  = fs (snd (@main Lcg.random (fun k => Lcg.clock 0 (k - 5)) Lcg.disk_ok 42 3
               (@Build_World Lcg.random 99%Z 5 ∅)))
    !! "sample_loan_data.csv"%string.
Proof.
  assert (Hread : forall k,
             Lcg.clock 0 (clock_reads (Lcg.world 0) + k)%nat
             = (fun k => Lcg.clock 0 (k - 5))
                 (clock_reads (@Build_World Lcg.random 99%Z 5 ∅) + k)%nat).
  { intros k. cbn [clock_reads Lcg.world]. cbv beta. f_equal. lia. }
  pose proof (@runs_with_same_readings_agree Lcg.random (Lcg.clock 0)
                (fun k => Lcg.clock 0 (k - 5)) Lcg.disk_ok Lcg.disk_ok 42 3
                (Lcg.world 0) (@Build_World Lcg.random 99%Z 5 ∅) Hread)
    as [H1 H2].
  split; [exact H1|].
  refine (H2 (fun p _ => conj eq_refl eq_refl) _ _).
  right; right; left; reflexivity.
Defined.

Lemma tables_have_n_rows_run :
  exists borrower_df alt_data_df loan_df w,
    @generate Lcg.random (Lcg.clock 0) 42 3 (Lcg.world 0)
      = (Ok (borrower_df, alt_data_df, loan_df), w) /\
    is_Some (borrower_iloc borrower_df 2) /\
    ~ is_Some (borrower_iloc borrower_df 3).
Proof.
  destruct (@tables_have_n_rows Lcg.random (Lcg.clock 0) 42 3 (Lcg.world 0))
    as (b & a & l & w & E & H).
  exists b, a, l, w. split; [exact E|]. split.
  - apply (H 2%nat). lia.
  - intros Hs. apply (H 3%nat) in Hs. lia.
Defined.

Lemma complete_run_writes_all_four_run :
  exists borrower_df alt_data_df loan_df,
    fst (@generate Lcg.random (Lcg.clock 0) 42 3 (Lcg.world 0))
      = Ok (borrower_df, alt_data_df, loan_df) /\
    let out := @main Lcg.random (Lcg.clock 0) Lcg.disk_ok 42 3 (Lcg.world 0) in
    fst out = Ok tt /\
    fs (snd out) !! "sample_loan_data.csv"%string = Some (LoanCsv loan_df).
Proof.
  destruct (@complete_run_writes_all_four Lcg.random (Lcg.clock 0) Lcg.disk_ok
              42 3 (Lcg.world 0) (fun _ _ => eq_refl))
    as (b & a & l & E & H1 & _ & _ & H4 & _).
  exists b, a, l. split; [exact E|]. split; [exact H1 | exact H4].
Defined.

Lemma run_touches_only_its_outputs_run :
  fs (snd (@main Lcg.random (Lcg.clock 0) Lcg.disk_refusing_loans 42 3
             (Lcg.world 0))) !! "notes.txt"%string
  = fs (Lcg.world 0) !! "notes.txt"%string.
Proof.
  apply run_touches_only_its_outputs.
  unfold output_paths. simpl. intros [H|[H|[H|[H|[]]]]]; discriminate H.
Defined.

Lemma identifiers_keep_their_width_run :
  exists borrower_df alt_data_df loan_df w row loan_row,
    @generate Lcg.random (Lcg.clock 0) 42 3 (Lcg.world 0)
      = (Ok (borrower_df, alt_data_df, loan_df), w) /\
    borrower_iloc borrower_df 0 = Some row /\
    loan_iloc loan_df 0 = Some loan_row /\
    String.length (Borrower.borrower_id row) = 9%nat /\
    String.length (Loan.loan_id loan_row) = 10%nat.
Proof.
  destruct (@identifiers_keep_their_width Lcg.random (Lcg.clock 0) 42 3
              (Lcg.world 0)) as (b & a & l & w & E & Hrows & Hb & Hl).
  destruct (Hrows 0%nat ltac:(lia)) as [[row Hrow] [loan_row Hlrow]].
  exists b, a, l, w, row, loan_row.
  split; [exact E|]. split; [exact Hrow|]. split; [exact Hlrow|].
  split.
  - apply (Hb _ _ Hrow). apply (Nat.lt_le_trans _ (10 ^ 1)); [simpl; lia|].
    apply Nat.pow_le_mono_r; lia.
  - apply (Hl _ _ Hlrow). apply (Nat.lt_le_trans _ (10 ^ 1)); [simpl; lia|].
    apply Nat.pow_le_mono_r; lia.
Defined.
